(** * The aggregation pipeline of [covid_plotter.ipynb]

    The notebook fetches the NYT county table, turns its [date] column
    into timestamps, and builds the national daily totals

<<
    df_plot = df_full.loc[:, ['date', 'cases', 'deaths']].groupby('date').agg('sum').reset_index()
    df_plot = df_plot.join(df_plot[['cases', 'deaths']].shift(fill_value=0).add_prefix('cobweb_'))
>>

    This file embeds the data-frame operations those cells call, the two
    cells themselves as transformers of the kernel namespace, and proves
    the properties of the tables they produce.

    The counts are [int64] columns: their sums wrap around at 64 bits,
    as the library's do.  Float columns are held as whole numbers (the
    fips codes are); no statement below rests on the value of a float
    sum. *)

From stdpp Require Import gmap strings list.
From Stdlib Require Import ZArith Lia Sorted Ascii.

(** ** Exceptions and the result of a statement *)

(** The exceptions the two cells can let through, by class, with the
    name, label or text their message is about ([ValueError]: the
    labels or the text concerned).  [NotModelled] is not one of
    Python's: it answers the two operations below that the notebook
    never asks for (shifting an object or datetime column, joining
    frames that are not on the same row numbers). *)
Inductive Exception :=
| NameError (name : string)
| KeyError (key : string)
| ValueError (about : list string)
| ParserError (text : string)
| OutOfBoundsDatetime (text : string)
| NotModelled (what : string).

Inductive result (A : Type) :=
| Ok (a : A)
| Raise (e : Exception).

Arguments Ok {A} a.
Arguments Raise {A} e.

Definition bind {A B} (m : result A) (k : A -> result B) : result B :=
  match m with
  | Ok a => k a
  | Raise e => Raise e
  end.

Notation "'let!' x ':=' m 'in' k" := (bind m (fun x => k))
  (at level 10, x name, m at level 100, k at level 200).

Fixpoint traverse {A B} (f : A -> result B) (l : list A) : result (list B) :=
  match l with
  | [] => Ok []
  | a :: l' => let! b := f a in let! bs := traverse f l' in Ok (b :: bs)
  end.

(** ** 64-bit integers *)

(** The value a 64-bit signed integer takes for [z]: arithmetic on
    [int64] cells wraps around. *)
Definition int64 (z : Z) : Z := ((z + 2 ^ 63) mod 2 ^ 64 - 2 ^ 63)%Z.

Definition in_int64 (z : Z) : Prop := (- 2 ^ 63 <= z < 2 ^ 63)%Z.

(** ** Data frames *)

(** A [datetime64[ns]] value: nanoseconds since the epoch, or [NaT]. *)
Inductive Timestamp :=
| NaT
| Ts (ns : Z).

(** A column, by dtype.  [None] is NaN in a float or object column. *)
Inductive Series :=
| Int64 (xs : list Z)
| Float64 (xs : list (option Z))
| Object (xs : list (option string))
| Datetime64 (xs : list Timestamp).

(** An index: the default row numbers, or labels with their name, if
    they have one. *)
Inductive Index :=
| RangeIndex (stop : nat)
| KeyIndex (name : option string) (keys : Series).

Record DataFrame := mkDataFrame {
  df_index : Index;
  df_columns : list (string * Series)
}.

#[global] Instance Timestamp_eq_dec : EqDecision Timestamp.
Proof. solve_decision. Defined.

#[global] Instance Series_eq_dec : EqDecision Series.
Proof. solve_decision. Defined.

#[global] Instance Index_eq_dec : EqDecision Index.
Proof. solve_decision. Defined.

#[global] Instance DataFrame_eq_dec : EqDecision DataFrame.
Proof. solve_decision. Defined.

Definition series_len (s : Series) : nat :=
  match s with
  | Int64 xs => length xs
  | Float64 xs => length xs
  | Object xs => length xs
  | Datetime64 xs => length xs
  end.

Definition index_len (i : Index) : nat :=
  match i with
  | RangeIndex stop => stop
  | KeyIndex _ keys => series_len keys
  end.

Definition index_name (i : Index) : option string :=
  match i with
  | RangeIndex _ => None
  | KeyIndex name _ => name
  end.

(** [len(df)] and [list(df.columns)]. *)
Definition nrows (df : DataFrame) : nat := index_len (df_index df).

Definition column_names (df : DataFrame) : list string := map fst (df_columns df).

Fixpoint get_column (name : string) (cols : list (string * Series)) : option Series :=
  match cols with
  | [] => None
  | (n, s) :: cols' => if String.eqb n name then Some s else get_column name cols'
  end.

(** [df[name]] *)
Definition getitem (name : string) (df : DataFrame) : result Series :=
  match get_column name (df_columns df) with
  | Some s => Ok s
  | None => Raise (KeyError name)
  end.

(** A single cell, [df.at[i, name]]. *)
Inductive Cell :=
| CInt (z : Z)
| CFloat (x : option Z)
| CObject (x : option string)
| CTime (t : Timestamp).

Definition series_at (s : Series) (i : nat) : option Cell :=
  match s with
  | Int64 xs => CInt <$> xs !! i
  | Float64 xs => CFloat <$> xs !! i
  | Object xs => CObject <$> xs !! i
  | Datetime64 xs => CTime <$> xs !! i
  end.

Definition at_ (df : DataFrame) (i : nat) (name : string) : option Cell :=
  s ← get_column name (df_columns df); series_at s i.

(** The exact sum of a list of integers. *)
Definition sum_Z (xs : list Z) : Z := foldr Z.add 0%Z xs.

(** [s.sum()]: the 64-bit sum of an integer column; NaN is skipped in
    a float column; defined on the numeric dtypes. *)
Definition series_sum (s : Series) : option Z :=
  match s with
  | Int64 xs => Some (int64 (sum_Z xs))
  | Float64 xs => Some (sum_Z (map (default 0%Z) xs))
  | Object _ | Datetime64 _ => None
  end.

Definition column_sum (name : string) (df : DataFrame) : option Z :=
  s ← get_column name (df_columns df); series_sum s.

(** ** The operations of the aggregation cell *)

(** [df.loc[:, names]]: the named columns, in the order asked for, on
    the same index; a missing label is a [KeyError]. *)
Definition loc (names : list string) (df : DataFrame) : result DataFrame :=
  let! cols := traverse (fun n => let! s := getitem n df in Ok (n, s)) names in
  Ok {| df_index := df_index df; df_columns := cols |}.

(** [df[names]] with a list of labels selects the same way. *)
Definition getitem_columns (names : list string) (df : DataFrame) : result DataFrame :=
  loc names df.

(** [df.groupby(by)]: the frame with its grouping column. *)
Record DataFrameGroupBy := mkGroupBy {
  gb_obj : DataFrame;
  gb_by : string;
  gb_grouper : Series
}.

(** The label names a column, or else the index; a label that names
    both is refused as ambiguous. *)
Definition groupby (by_ : string) (df : DataFrame) : result DataFrameGroupBy :=
  match get_column by_ (df_columns df), df_index df with
  | Some s, idx =>
      if decide (index_name idx = Some by_)
      then Raise (ValueError [by_])
      else Ok {| gb_obj := df; gb_by := by_; gb_grouper := s |}
  | None, KeyIndex name keys =>
      if decide (name = Some by_)
      then Ok {| gb_obj := df; gb_by := by_; gb_grouper := keys |}
      else Raise (KeyError by_)
  | None, RangeIndex _ => Raise (KeyError by_)
  end.

(** The group key of each row of a numeric or timestamp grouping
    column, [None] where the key is missing (NaN, NaT): such rows
    belong to no group ([dropna=True]).  With it, how the keys of the
    groups are put back into a column of the dtype of the grouping
    column. *)
Definition group_keys (s : Series) : option (list (option Z) * (list Z -> Series)) :=
  match s with
  | Int64 xs => Some (map Some xs, Int64)
  | Float64 xs => Some (xs, fun ks => Float64 (map Some ks))
  | Datetime64 xs =>
      Some (map (fun t => match t with NaT => None | Ts ns => Some ns end) xs,
            fun ks => Datetime64 (map Ts ks))
  | Object _ => None
  end.

(** The distinct keys in ascending order ([sort=True]). *)
Fixpoint insert_key (k : Z) (l : list Z) : list Z :=
  match l with
  | [] => [k]
  | x :: l' =>
      if (k <? x)%Z then k :: l
      else if (k =? x)%Z then l
      else x :: insert_key k l'
  end.

Definition sorted_unique (ks : list (option Z)) : list Z :=
  foldr (fun o acc => match o with Some k => insert_key k acc | None => acc end) [] ks.

Definition in_group (k : Z) (key : option Z) : bool :=
  match key with
  | Some k' => (k' =? k)%Z
  | None => false
  end.

(** The 64-bit sum of the values on the rows of group [k]: every
    addition wraps around. *)
Fixpoint group_sum (k : Z) (ks : list (option Z)) (xs : list Z) : Z :=
  match ks, xs with
  | key :: ks', x :: xs' =>
      int64 ((if in_group k key then x else 0) + group_sum k ks' xs')
  | _, _ => 0%Z
  end.

(** The exact sum of the values on the rows of group [k]. *)
Fixpoint group_total (k : Z) (ks : list (option Z)) (xs : list Z) : Z :=
  match ks, xs with
  | key :: ks', x :: xs' =>
      ((if in_group k key then x else 0) + group_total k ks' xs')%Z
  | _, _ => 0%Z
  end.

(** One aggregated column; a column that is not numeric is left out. *)
Definition sum_groups (ks : list (option Z)) (groups : list Z) (s : Series) : option Series :=
  match s with
  | Int64 xs => Some (Int64 (map (fun k => group_sum k ks xs) groups))
  | Float64 xs =>
      Some (Float64 (map (fun k => Some (group_total k ks (map (default 0%Z) xs))) groups))
  | Object _ | Datetime64 _ => None
  end.

(** The same for a grouping column of texts: the groups are the
    distinct texts in ascending order. *)
Definition object_labels (s : Series) : list (option string) :=
  match s with
  | Object xs => xs
  | Int64 _ | Float64 _ | Datetime64 _ => []
  end.

Fixpoint insert_label (k : string) (l : list string) : list string :=
  match l with
  | [] => [k]
  | x :: l' =>
      if String.ltb k x then k :: l
      else if String.eqb k x then l
      else x :: insert_label k l'
  end.

Definition sorted_labels (ks : list (option string)) : list string :=
  foldr (fun o acc => match o with Some k => insert_label k acc | None => acc end) [] ks.

Definition in_label_group (k : string) (key : option string) : bool :=
  match key with
  | Some k' => String.eqb k' k
  | None => false
  end.

Fixpoint label_group_sum (k : string) (ks : list (option string)) (xs : list Z) : Z :=
  match ks, xs with
  | key :: ks', x :: xs' =>
      int64 ((if in_label_group k key then x else 0) + label_group_sum k ks' xs')
  | _, _ => 0%Z
  end.

Fixpoint label_group_total (k : string) (ks : list (option string)) (xs : list Z) : Z :=
  match ks, xs with
  | key :: ks', x :: xs' =>
      ((if in_label_group k key then x else 0) + label_group_total k ks' xs')%Z
  | _, _ => 0%Z
  end.

Definition sum_label_groups (ks : list (option string)) (groups : list string) (s : Series)
  : option Series :=
  match s with
  | Int64 xs => Some (Int64 (map (fun k => label_group_sum k ks xs) groups))
  | Float64 xs =>
      Some (Float64 (map (fun k => Some (label_group_total k ks (map (default 0%Z) xs)))
                       groups))
  | Object _ | Datetime64 _ => None
  end.

(** [g.agg('sum')]: one row per group, indexed by the sorted keys. *)
Definition agg_sum (g : DataFrameGroupBy) : result DataFrame :=
  match group_keys (gb_grouper g) with
  | None =>
      let ks := object_labels (gb_grouper g) in
      let groups := sorted_labels ks in
      Ok {| df_index := KeyIndex (Some (gb_by g)) (Object (map Some groups));
            df_columns :=
              flat_map (fun '(n, s) =>
                          if String.eqb n (gb_by g) then []
                          else match sum_label_groups ks groups s with
                               | Some s' => [(n, s')]
                               | None => []
                               end)
                       (df_columns (gb_obj g)) |}
  | Some (ks, as_labels) =>
      let groups := sorted_unique ks in
      Ok {| df_index := KeyIndex (Some (gb_by g)) (as_labels groups);
            df_columns :=
              flat_map (fun '(n, s) =>
                          if String.eqb n (gb_by g) then []
                          else match sum_groups ks groups s with
                               | Some s' => [(n, s')]
                               | None => []
                               end)
                       (df_columns (gb_obj g)) |}
  end.

Definition has_column (name : string) (df : DataFrame) : bool :=
  match get_column name (df_columns df) with
  | Some _ => true
  | None => false
  end.

(** [df.reset_index()]: the index becomes the first column, under its
    name, or under [index] ([level_0] when that is taken) if it has
    none; a label that is already a column cannot be inserted. *)
Definition reset_index (df : DataFrame) : result DataFrame :=
  let unnamed := if has_column "index" df then "level_0" else "index" in
  let '(name, labels) :=
    match df_index df with
    | RangeIndex stop => (unnamed, Int64 (map Z.of_nat (seq 0 stop)))
    | KeyIndex (Some name) keys => (name, keys)
    | KeyIndex None keys => (unnamed, keys)
    end in
  if has_column name df
  then Raise (ValueError [name])
  else Ok {| df_index := RangeIndex (series_len labels);
             df_columns := (name, labels) :: df_columns df |}.

(** [shift(fill_value=...)] on one column: every value moves down one
    row, the first row takes the fill value, the last value falls off. *)
Definition shift_list {A} (fill : A) (xs : list A) : list A :=
  take (length xs) (fill :: xs).

Definition shift_series (fill : Z) (s : Series) : result Series :=
  match s with
  | Int64 xs => Ok (Int64 (shift_list fill xs))
  | Float64 xs => Ok (Float64 (shift_list (Some fill) xs))
  | Object _ => Raise (NotModelled "shift of an object column")
  | Datetime64 _ => Raise (NotModelled "shift of a datetime column")
  end.

Definition shift (fill : Z) (df : DataFrame) : result DataFrame :=
  let! cols := traverse (fun '(n, s) => let! s' := shift_series fill s in Ok (n, s'))
                       (df_columns df) in
  Ok {| df_index := df_index df; df_columns := cols |}.

(** [df.add_prefix(p)] *)
Definition add_prefix (p : string) (df : DataFrame) : DataFrame :=
  {| df_index := df_index df;
     df_columns := map (fun '(n, s) => (p +:+ n, s)) (df_columns df) |}.

(** The labels two frames share, in the order of the left one. *)
Definition overlap (left right : DataFrame) : list string :=
  List.filter (fun n => has_column n right) (column_names left).

(** The index of a joined frame: one without rows is an object index. *)
Definition joined_index (i : Index) : Index :=
  if Nat.eqb (index_len i) 0 then KeyIndex (index_name i) (Object []) else i.

(** [left.join(right)]: shared labels are refused ("columns overlap
    but no suffix specified"); two frames on the same row numbers are
    put side by side, row by row. *)
Definition join (left right : DataFrame) : result DataFrame :=
  match overlap left right with
  | (_ :: _) as labels => Raise (ValueError labels)
  | [] =>
      match df_index left, df_index right with
      | RangeIndex n, RangeIndex m =>
          if Nat.eqb n m
          then Ok {| df_index := joined_index (RangeIndex n);
                     df_columns := df_columns left ++ df_columns right |}
          else Raise (NotModelled "join of frames of different lengths")
      | _, _ => Raise (NotModelled "join on a labelled index")
      end
  end.

(** ** The kernel namespace and the aggregation cell *)

Definition load_name (name : string) (ns : gmap string DataFrame) : result DataFrame :=
  match ns !! name with
  | Some df => Ok df
  | None => Raise (NameError name)
  end.

(** [df_full.loc[:, ['date', 'cases', 'deaths']].groupby('date').agg('sum').reset_index()] *)
Definition national_aggregates (df_full : DataFrame) : result DataFrame :=
  let! sel := loc ["date"; "cases"; "deaths"] df_full in
  let! g := groupby "date" sel in
  let! agg := agg_sum g in
  reset_index agg.

(** [df_plot.join(df_plot[['cases', 'deaths']].shift(fill_value=0).add_prefix('cobweb_'))] *)
Definition with_cobweb (df_plot : DataFrame) : result DataFrame :=
  let! sub := getitem_columns ["cases"; "deaths"] df_plot in
  let! shifted := shift 0 sub in
  join df_plot (add_prefix "cobweb_" shifted).

(** The cell: two assignments to [df_plot], the second reading the
    first. *)
Definition cell_aggregate (ns : gmap string DataFrame) : result (gmap string DataFrame) :=
  let! df_full := load_name "df_full" ns in
  let! v := national_aggregates df_full in
  let ns := <["df_plot" := v]> ns in
  let! df_plot := load_name "df_plot" ns in
  let! v := with_cobweb df_plot in
  Ok (<["df_plot" := v]> ns).

(** The Aggregator: the cell run in a kernel that holds the raw table. *)
Definition Aggregator (df_full : DataFrame) : result DataFrame :=
  let! ns := cell_aggregate {["df_full" := df_full]} in
  load_name "df_plot" ns.

(** ** Raw records *)

(** One row of the loaded table: the counts of one county on one day.
    A raw record always carries its date, as a timestamp; the fips code
    is missing for some counties. *)
Record RawRecord := mkRawRecord {
  date : Z;
  county : string;
  state : string;
  fips : option Z;
  cases : Z;
  deaths : Z
}.

(** The loaded table, in the column order of the CSV. *)
Definition raw_table (rs : list RawRecord) : DataFrame :=
  {| df_index := RangeIndex (length rs);
     df_columns :=
       [("date", Datetime64 (map (fun r => Ts (date r)) rs));
        ("county", Object (map (fun r => Some (county r)) rs));
        ("state", Object (map (fun r => Some (state r)) rs));
        ("fips", Float64 (map fips rs));
        ("cases", Int64 (map cases rs));
        ("deaths", Int64 (map deaths rs))] |}.

(** ** The loading cell *)

(** What the date parser of [pd.to_datetime] makes of one text: an
    instant, the missing instant (texts such as [NaT]), or one of its
    three refusals. *)
Inductive DateParse :=
| Parsed (ns : Z)
| ParsedNaT
| Unparsable
| OutOfBounds
| Invalid.

Section Loader.

Variable parse_date : string -> DateParse.

Definition to_timestamp (x : option string) : result Timestamp :=
  match x with
  | None => Ok NaT
  | Some text =>
      match parse_date text with
      | Parsed ns => Ok (Ts ns)
      | ParsedNaT => Ok NaT
      | Unparsable => Raise (ParserError text)
      | OutOfBounds => Raise (OutOfBoundsDatetime text)
      | Invalid => Raise (ValueError [text])
      end
  end.

(** An integer read as nanoseconds since the epoch; the least 64-bit
    integer is how NaT is stored. *)
Definition timestamp_of_int (x : Z) : Timestamp :=
  if (x =? - 2 ^ 63)%Z then NaT else Ts x.

(** [pd.to_datetime(s)] with [errors='raise']. *)
Definition to_datetime (s : Series) : result Series :=
  match s with
  | Object xs => let! ts := traverse to_timestamp xs in Ok (Datetime64 ts)
  | Datetime64 _ => Ok s
  | Int64 xs => Ok (Datetime64 (map timestamp_of_int xs))
  | Float64 xs => Ok (Datetime64 (map (fun x => from_option timestamp_of_int NaT x) xs))
  end.

Fixpoint set_column (name : string) (s : Series) (cols : list (string * Series))
  : list (string * Series) :=
  match cols with
  | [] => [(name, s)]
  | (n, c) :: cols' =>
      if String.eqb n name then (n, s) :: cols'
      else (n, c) :: set_column name s cols'
  end.

(** [df[name] = s] *)
Definition setitem (name : string) (s : Series) (df : DataFrame) : DataFrame :=
  {| df_index := df_index df; df_columns := set_column name s (df_columns df) |}.

(** The cell, given what [pd.read_csv(url)] answered. *)
Definition cell_load (read_csv : result DataFrame) (ns : gmap string DataFrame)
  : result (gmap string DataFrame) :=
  let! fetched := read_csv in
  let ns := <["df_full" := fetched]> ns in
  let! df_full := load_name "df_full" ns in
  let! col := getitem "date" df_full in
  let! v := to_datetime col in
  let! df_full := load_name "df_full" ns in
  Ok (<["df_full" := setitem "date" v df_full]> ns).

End Loader.

(** ** Calendar dates as timestamps *)

(** Days from 1970-01-01 to the given civil date. *)
Definition days_from_civil (y m d : Z) : Z :=
  let y' := if (m <=? 2)%Z then (y - 1)%Z else y in
  let era := (y' / 400)%Z in
  let yoe := (y' - era * 400)%Z in
  let mp := ((m + 9) mod 12)%Z in
  let doy := ((153 * mp + 2) / 5 + d - 1)%Z in
  let doe := (yoe * 365 + yoe / 4 - yoe / 100 + doy)%Z in
  (era * 146097 + doe - 719468)%Z.

(** Midnight of a civil date, in nanoseconds since the epoch. *)
Definition midnight (y m d : Z) : Z := (days_from_civil y m d * 86400 * 1000000000)%Z.

Definition is_leap (y : Z) : bool :=
  ((y mod 4 =? 0) && (negb (y mod 100 =? 0) || (y mod 400 =? 0)))%Z.

Definition days_in_month (y m : Z) : Z :=
  if (m =? 2)%Z then (if is_leap y then 29 else 28)%Z
  else if ((m =? 4) || (m =? 6) || (m =? 9) || (m =? 11))%Z then 30%Z
  else 31%Z.

Definition digit_of (c : Ascii.ascii) : option Z :=
  let n := Z.of_nat (nat_of_ascii c) in
  if ((48 <=? n) && (n <=? 57))%Z then Some (n - 48)%Z else None.

Fixpoint number_of (acc : Z) (cs : list Ascii.ascii) : option Z :=
  match cs with
  | [] => Some acc
  | c :: cs' =>
      match digit_of c with
      | Some v => number_of (10 * acc + v)%Z cs'
      | None => None
      end
  end.

(** A parser that knows the [YYYY-MM-DD] texts of the NYT table and no
    other format; it stands for the library's parser in the examples,
    which hold such texts only.  A date whose midnight does not fit the
    64 bits of a timestamp is out of bounds. *)
Definition parse_iso_date (text : string) : DateParse :=
  match String.list_ascii_of_string text with
  | [y1; y2; y3; y4; "-"%char; m1; m2; "-"%char; d1; d2] =>
      match number_of 0 [y1; y2; y3; y4], number_of 0 [m1; m2], number_of 0 [d1; d2] with
      | Some y, Some m, Some d =>
          if ((1 <=? m) && (m <=? 12) && (1 <=? d) && (d <=? days_in_month y m))%Z
          then if ((- 2 ^ 63 <? midnight y m d) && (midnight y m d <? 2 ^ 63))%Z
               then Parsed (midnight y m d) else OutOfBounds
          else Unparsable
      | _, _, _ => Unparsable
      end
  | _ => Unparsable
  end.

Definition scenario : list RawRecord :=
  [mkRawRecord (midnight 2020 1 21) "Snohomish" "Washington" (Some 53061%Z) 1 0;
   mkRawRecord (midnight 2020 1 21) "Cook" "Illinois" (Some 17031%Z) 0 0;
   mkRawRecord (midnight 2020 1 22) "Snohomish" "Washington" (Some 53061%Z) 2 1].

(** ** The daily totals in closed form *)

Definition day_keys (rs : list RawRecord) : list (option Z) :=
  map (fun r => Some (date r)) rs.

(** The distinct dates of the table, ascending. *)
Definition days (rs : list RawRecord) : list Z := sorted_unique (day_keys rs).

Definition day_totals (f : RawRecord -> Z) (rs : list RawRecord) : list Z :=
  map (fun d => group_sum d (day_keys rs) (map f rs)) (days rs).

Definition grouped_table (rs : list RawRecord) : DataFrame :=
  {| df_index := RangeIndex (length (days rs));
     df_columns :=
       [("date", Datetime64 (map Ts (days rs)));
        ("cases", Int64 (day_totals cases rs));
        ("deaths", Int64 (day_totals deaths rs))] |}.

Definition daily_table (rs : list RawRecord) : DataFrame :=
  {| df_index := joined_index (RangeIndex (length (days rs)));
     df_columns :=
       [("date", Datetime64 (map Ts (days rs)));
        ("cases", Int64 (day_totals cases rs));
        ("deaths", Int64 (day_totals deaths rs));
        ("cobweb_cases", Int64 (shift_list 0%Z (day_totals cases rs)));
        ("cobweb_deaths", Int64 (shift_list 0%Z (day_totals deaths rs)))] |}.

(** The sum of the values on the rows that carry a key. *)
Fixpoint keyed_sum (ks : list (option Z)) (xs : list Z) : Z :=
  match ks, xs with
  | key :: ks', x :: xs' =>
      ((match key with Some _ => x | None => 0 end) + keyed_sum ks' xs')%Z
  | _, _ => 0%Z
  end.

(** The spec's words for the properties below. *)

(** The values of column [dst] are those of column [src] one row
    later, and its first row holds the integer 0. *)
Definition shifted_from (df : DataFrame) (src dst : string) : Prop :=
  (0 < nrows df -> at_ df 0 dst = Some (CInt 0)) /\
  (forall i, 0 < i < nrows df ->
     exists z, at_ df (i - 1) src = Some (CInt z) /\ at_ df i dst = Some (CInt z)).

(** The total of [f] over the records dated [d]. *)
Definition total_on (f : RawRecord -> Z) (d : Z) (rs : list RawRecord) : Z :=
  sum_Z (map f (filter (fun r => date r = d) rs)).

Definition distinct_dates (rs : list RawRecord) : gset Z := list_to_set (map date rs).

(** ** Example kernels and tables *)

Definition kernel_fresh : gmap string DataFrame :=
  {["df_full" := raw_table scenario]}.

(** A kernel in which the cell has run before on another table. *)
Definition kernel_stale : gmap string DataFrame :=
  <["df_plot" := raw_table []]> kernel_fresh.

(** A loaded table with a row whose date is missing. *)
Definition table_with_undated_row : DataFrame :=
  {| df_index := RangeIndex 2;
     df_columns :=
       [("date", Datetime64 [Ts (midnight 2020 1 21); NaT]);
        ("cases", Int64 [1; 5]%Z);
        ("deaths", Int64 [0; 2]%Z)] |}.


(** Two counties that report 2^62 cases each on one day: two counts a
    64-bit integer holds, with a sum it does not hold. *)
Definition two_large_counts : list RawRecord :=
  [mkRawRecord (midnight 2020 1 21) "Snohomish" "Washington" (Some 53061%Z) (2 ^ 62) 0;
   mkRawRecord (midnight 2020 1 21) "Cook" "Illinois" (Some 17031%Z) (2 ^ 62) 0].

(** ** Loaded tables in general *)

(** A frame as [pd.read_csv] builds it: the column labels are pairwise
    different, and every column has as many cells as the index has
    rows. *)
Definition frame_ok (df : DataFrame) : Prop :=
  NoDup (column_names df) /\
  Forall (fun c => series_len c.2 = nrows df) (df_columns df).

Definition timestamp_keys (ts : list Timestamp) : list (option Z) :=
  map (fun t => match t with NaT => None | Ts ns => Some ns end) ts.

(** The outcome of the aggregation on a table whose dates are [ts] and
    whose integer counts are [cs] and [dd]. *)
Definition totals_table (ts : list Timestamp) (cs dd : list Z) : DataFrame :=
  let ks := timestamp_keys ts in
  let cases' := map (fun k => group_sum k ks cs) (sorted_unique ks) in
  let deaths' := map (fun k => group_sum k ks dd) (sorted_unique ks) in
  {| df_index := joined_index (RangeIndex (length (sorted_unique ks)));
     df_columns :=
       [("date", Datetime64 (map Ts (sorted_unique ks)));
        ("cases", Int64 cases');
        ("deaths", Int64 deaths');
        ("cobweb_cases", Int64 (shift_list 0%Z cases'));
        ("cobweb_deaths", Int64 (shift_list 0%Z deaths'))] |}.

(** The exact total of the counts [xs] over the rows dated [t]. *)
Definition dated_total (t : Z) (ts : list Timestamp) (xs : list Z) : Z :=
  sum_Z (map snd (filter (fun p => p.1 = Ts t) (zip ts xs))).

(** The timestamp [pd.to_datetime] makes of one cell of a text column:
    NaT of a missing text, the parsed instant of a text. *)
Definition parsed_as (parse_date : string -> DateParse) (x : option string) (t : Timestamp)
  : Prop :=
  match x, t with
  | None, NaT => True
  | Some text, Ts n => parse_date text = Parsed n
  | Some text, NaT => parse_date text = ParsedNaT
  | None, Ts _ => False
  end.

(** The three columns the aggregation reads of the scenario, in another
    order and on another index. *)
Definition scenario_three_columns : DataFrame :=
  {| df_index := KeyIndex (Some "fips") (Float64 [Some 53061%Z; Some 17031%Z; Some 53061%Z]);
     df_columns :=
       [("deaths", Int64 (map deaths scenario));
        ("cases", Int64 (map cases scenario));
        ("date", Datetime64 (map (fun r => Ts (date r)) scenario))] |}.

(** A fetched table with a row whose date field is empty. *)
Definition fetched_with_blank_date : DataFrame :=
  {| df_index := RangeIndex 2;
     df_columns :=
       [("date", Object [Some "2020-01-21"; None]);
        ("county", Object [Some "Snohomish"; Some "Cook"]);
        ("cases", Int64 [1; 5]%Z);
        ("deaths", Int64 [0; 2]%Z)] |}.

(** A loaded table with blank fields: a date, a county and a fips code
    are missing. *)
Definition table_with_blank_fields : DataFrame :=
  {| df_index := RangeIndex 3;
     df_columns :=
       [("date", Datetime64 [Ts (midnight 2020 1 22); Ts (midnight 2020 1 21); NaT]);
        ("county", Object [Some "Snohomish"; Some "Snohomish"; None]);
        ("fips", Float64 [Some 53061%Z; None; Some 17031%Z]);
        ("cases", Int64 [2; 1; 4]%Z);
        ("deaths", Int64 [1; 0; 3]%Z)] |}.

(** A table that lacks the deaths column. *)
Definition table_without_deaths : DataFrame :=
  {| df_index := RangeIndex 1;
     df_columns := [("date", Datetime64 [Ts (midnight 2020 1 21)]); ("cases", Int64 [1]%Z)] |}.

(** What [pd.read_csv] answers for a file that holds the header line
    and no row: no column has a value to take a dtype from, so every
    column is an object column, on an object index. *)
Definition header_only_fetched : DataFrame :=
  {| df_index := KeyIndex None (Object []);
     df_columns :=
       [("date", Object []); ("county", Object []); ("state", Object []);
        ("fips", Object []); ("cases", Object []); ("deaths", Object [])] |}.

(** The same table once loaded: its date column is a timestamp column. *)
Definition header_only_loaded : DataFrame :=
  setitem "date" (Datetime64 []) header_only_fetched.

(** * Proofs *)

(** ** Sorted keys *)

Lemma elem_of_insert_key (k x : Z) (l : list Z) :
  x ∈ insert_key k l <-> x = k \/ x ∈ l.
Proof.
  induction l as [|y l IH]; simpl.
  - rewrite list_elem_of_singleton, elem_of_nil. tauto.
  - destruct (Z.ltb_spec k y); [by rewrite elem_of_cons|].
    destruct (Z.eqb_spec k y) as [->|Hne].
    + rewrite elem_of_cons. tauto.
    + rewrite !elem_of_cons, IH. tauto.
Qed.

Lemma insert_key_sorted (k : Z) (l : list Z) :
  StronglySorted Z.lt l -> StronglySorted Z.lt (insert_key k l).
Proof.
  induction 1 as [|y l Hs IH Hall]; simpl.
  - repeat constructor.
  - destruct (Z.ltb_spec k y) as [Hlt|Hge].
    + constructor; [by constructor|].
      constructor; [done|]. eapply Forall_impl; [exact Hall|]. intros; simpl in *; lia.
    + destruct (Z.eqb_spec k y) as [->|Hne]; [by constructor|].
      constructor; [done|].
      apply Forall_forall. intros x Hx. apply elem_of_insert_key in Hx as [->|Hx].
      * lia.
      * rewrite Forall_forall in Hall. by apply Hall.
Qed.

Lemma sum_Z_cons (x : Z) (xs : list Z) : sum_Z (x :: xs) = (x + sum_Z xs)%Z.
Proof. reflexivity. Qed.

Lemma insert_key_sum (f : Z -> Z) (k : Z) (l : list Z) :
  StronglySorted Z.lt l ->
  sum_Z (map f (insert_key k l))
  = ((if decide (k ∈ l) then 0 else f k) + sum_Z (map f l))%Z.
Proof.
  induction 1 as [|y l Hs IH Hall].
  - rewrite decide_False by apply not_elem_of_nil. reflexivity.
  - rewrite Forall_forall in Hall. cbn [insert_key].
    destruct (Z.ltb_spec k y) as [Hlt|Hge].
    + rewrite decide_False; [reflexivity|].
      intros [->|Hin]%elem_of_cons; [lia|]. apply Hall in Hin. lia.
    + destruct (Z.eqb_spec k y) as [->|Hne].
      * rewrite decide_True by apply list_elem_of_here. lia.
      * cbn [map]. rewrite !sum_Z_cons, IH.
        destruct (decide (k ∈ l)) as [Hin|Hin].
        -- rewrite decide_True by (by apply list_elem_of_further). lia.
        -- rewrite decide_False; [lia|]. by intros [?|?]%elem_of_cons.
Qed.

Lemma indicator_sum (k x : Z) (l : list Z) :
  StronglySorted Z.lt l ->
  sum_Z (map (fun g => if in_group g (Some k) then x else 0%Z) l)
  = if decide (k ∈ l) then x else 0%Z.
Proof.
  induction 1 as [|y l Hs IH Hall].
  - rewrite decide_False by apply not_elem_of_nil. reflexivity.
  - rewrite Forall_forall in Hall. cbn [map]. rewrite sum_Z_cons, IH. cbn [in_group].
    destruct (Z.eqb_spec k y) as [->|Hne], (decide (_ ∈ l)) as [Hin|Hin],
      (decide (_ ∈ y :: l)) as [Hin'|Hin']; try lia; exfalso.
    + apply Hall in Hin. lia.
    + apply Hin', list_elem_of_here.
    + apply Hin', list_elem_of_here.
    + by apply Hin', list_elem_of_further.
    + apply elem_of_cons in Hin' as [?|?]; done.
Qed.

Lemma sorted_unique_sorted (ks : list (option Z)) :
  StronglySorted Z.lt (sorted_unique ks).
Proof.
  induction ks as [|[k|] ks IH]; simpl.
  - constructor.
  - by apply insert_key_sorted.
  - done.
Qed.

Lemma elem_of_sorted_unique (k : Z) (ks : list (option Z)) :
  k ∈ sorted_unique ks <-> Some k ∈ ks.
Proof.
  induction ks as [|[k'|] ks IH]; simpl.
  - by rewrite !elem_of_nil.
  - rewrite elem_of_insert_key, IH, elem_of_cons.
    split; (intros [E|?]; [left; congruence|by right]).
  - rewrite IH, elem_of_cons. split; [by right|by intros [?|?]].
Qed.

Lemma StronglySorted_lt_NoDup (l : list Z) : StronglySorted Z.lt l -> NoDup l.
Proof.
  induction 1 as [|y l Hs IH Hall]; constructor; [|done].
  rewrite Forall_forall in Hall. intros Hin%Hall. lia.
Qed.

(** ** 64-bit arithmetic *)

Lemma int64_in_range (z : Z) : in_int64 (int64 z).
Proof.
  unfold in_int64, int64.
  pose proof (Z.mod_pos_bound (z + 2 ^ 63) (2 ^ 64) ltac:(lia)). lia.
Qed.

(** A value that fits is not changed. *)
Lemma int64_exact (z : Z) : in_int64 z -> int64 z = z.
Proof. unfold in_int64, int64. intros H. rewrite Z.mod_small; lia. Qed.

Lemma int64_add_r (a b : Z) : int64 (a + int64 b) = int64 (a + b).
Proof.
  unfold int64. f_equal.
  replace (a + ((b + 2 ^ 63) mod 2 ^ 64 - 2 ^ 63) + 2 ^ 63)%Z
    with (a + (b + 2 ^ 63) mod 2 ^ 64)%Z by lia.
  rewrite Z.add_mod_idemp_r by lia. f_equal. lia.
Qed.

Lemma int64_add_l (a b : Z) : int64 (int64 a + b) = int64 (a + b).
Proof. rewrite (Z.add_comm (int64 a)), int64_add_r. f_equal. lia. Qed.

Lemma int64_idemp (z : Z) : int64 (int64 z) = int64 z.
Proof. apply int64_exact, int64_in_range. Qed.

(** Wrapping every term of a sum and then the sum is wrapping the
    sum. *)
Lemma int64_sum_map {A} (g : A -> Z) (l : list A) :
  int64 (sum_Z (map (fun k => int64 (g k)) l)) = int64 (sum_Z (map g l)).
Proof.
  induction l as [|k l IH]; [done|]. cbn [map]. rewrite !sum_Z_cons.
  rewrite int64_add_l, <- int64_add_r, IH, int64_add_r. done.
Qed.

(** ** Sums by group *)

Lemma sum_Z_map_add (f g : Z -> Z) (l : list Z) :
  sum_Z (map (fun k => (f k + g k)%Z) l) = (sum_Z (map f l) + sum_Z (map g l))%Z.
Proof. induction l as [|k l IH]; [done|]. cbn [map]. rewrite !sum_Z_cons, IH. lia. Qed.

Lemma sum_Z_map_zero {A} (l : list A) : sum_Z (map (fun _ => 0%Z) l) = 0%Z.
Proof. induction l as [|k l IH]; [done|]. cbn [map]. by rewrite sum_Z_cons, IH. Qed.

(** The 64-bit group sum is the exact group total, wrapped. *)
Lemma group_sum_wraps (k : Z) (ks : list (option Z)) (xs : list Z) :
  group_sum k ks xs = int64 (group_total k ks xs).
Proof.
  revert xs. induction ks as [|key ks IH]; intros [|x xs]; try done.
  cbn [group_sum group_total]. by rewrite IH, int64_add_r.
Qed.

Lemma group_total_nil_r (k : Z) (ks : list (option Z)) : group_total k ks [] = 0%Z.
Proof. by destruct ks. Qed.

(** A key that labels no row has an empty group. *)
Lemma group_total_absent (k : Z) (ks : list (option Z)) (xs : list Z) :
  Some k ∉ ks -> group_total k ks xs = 0%Z.
Proof.
  revert xs. induction ks as [|key ks IH]; intros [|x xs] Hk; try done.
  cbn [group_total]. rewrite IH by (intros ?; by apply Hk, list_elem_of_further).
  destruct key as [k'|]; cbn [in_group]; [|done].
  destruct (Z.eqb_spec k' k) as [->|]; [|done].
  exfalso. apply Hk, list_elem_of_here.
Qed.

(** Grouping loses nothing but the rows without a key: the group
    totals add up to the sum over the keyed rows. *)
Lemma group_totals_total (ks : list (option Z)) (xs : list Z) :
  sum_Z (map (fun k => group_total k ks xs) (sorted_unique ks)) = keyed_sum ks xs.
Proof.
  revert xs. induction ks as [|key ks IH]; intros [|x xs]; try done.
  - erewrite map_ext; [apply sum_Z_map_zero|]. intros k. apply group_total_nil_r.
  - cbn [group_total keyed_sum]. rewrite <- (IH xs).
    pose proof (sorted_unique_sorted ks) as Hs.
    destruct key as [k0|]; cbn [sorted_unique foldr in_group].
    + fold (sorted_unique ks).
      rewrite (insert_key_sum (fun k => ((if (k0 =? k)%Z then x else 0) + group_total k ks xs)%Z))
        by done.
      rewrite (sum_Z_map_add (fun k => if (k0 =? k)%Z then x else 0%Z)).
      pose proof (indicator_sum k0 x _ Hs) as Hi. cbn [in_group] in Hi. rewrite Hi.
      destruct (decide (k0 ∈ sorted_unique ks)) as [Hin|Hin]; [lia|].
      rewrite Z.eqb_refl, group_total_absent; [lia|].
      by rewrite <- elem_of_sorted_unique.
    + fold (sorted_unique ks).
      erewrite map_ext; [reflexivity|]. intros k; simpl; lia.
Qed.

(** The 64-bit sum of the 64-bit group sums is the 64-bit sum over the
    keyed rows. *)
Lemma group_sums_total (ks : list (option Z)) (xs : list Z) :
  int64 (sum_Z (map (fun k => group_sum k ks xs) (sorted_unique ks)))
  = int64 (keyed_sum ks xs).
Proof.
  erewrite map_ext; [|intros k; apply group_sum_wraps].
  by rewrite int64_sum_map, group_totals_total.
Qed.

Lemma keyed_sum_day_keys (f : RawRecord -> Z) (rs : list RawRecord) :
  keyed_sum (day_keys rs) (map f rs) = sum_Z (map f rs).
Proof. induction rs as [|r rs IH]; [done|]. simpl. by rewrite IH. Qed.

Lemma group_total_total_on (f : RawRecord -> Z) (d : Z) (rs : list RawRecord) :
  group_total d (day_keys rs) (map f rs) = total_on f d rs.
Proof.
  unfold total_on. induction rs as [|r rs IH]; [done|].
  cbn [day_keys map group_total in_group]. fold (day_keys rs). rewrite IH.
  rewrite filter_cons.
  destruct (Z.eqb_spec (date r) d) as [E|E].
  - rewrite decide_True by done. reflexivity.
  - rewrite decide_False by done. lia.
Qed.

(** ** The days of a table *)

Lemma days_sorted (rs : list RawRecord) : StronglySorted Z.lt (days rs).
Proof. apply sorted_unique_sorted. Qed.

Lemma elem_of_days (d : Z) (rs : list RawRecord) :
  d ∈ days rs <-> exists r, r ∈ rs /\ date r = d.
Proof.
  unfold days, day_keys. rewrite elem_of_sorted_unique, list_elem_of_fmap.
  split; intros (r & H1 & H2); exists r; split; congruence.
Qed.

Lemma length_days (rs : list RawRecord) : length (days rs) = size (distinct_dates rs).
Proof.
  unfold distinct_dates.
  rewrite <- (size_list_to_set (C := gset Z) (days rs))
    by apply StronglySorted_lt_NoDup, days_sorted.
  f_equal. apply set_eq. intros d.
  rewrite !elem_of_list_to_set, elem_of_days, list_elem_of_fmap.
  split; intros (r & H1 & H2); exists r; split; congruence.
Qed.

Lemma length_day_totals (f : RawRecord -> Z) (rs : list RawRecord) :
  length (day_totals f rs) = length (days rs).
Proof. apply length_map. Qed.

(** The total of a day is the 64-bit sum of the counts of its rows. *)
Lemma day_totals_total_on (f : RawRecord -> Z) (rs : list RawRecord) :
  day_totals f rs = map (fun d => int64 (total_on f d rs)) (days rs).
Proof.
  unfold day_totals. apply map_ext. intros d.
  by rewrite group_sum_wraps, group_total_total_on.
Qed.

Lemma lookup_day_totals (f : RawRecord -> Z) (rs : list RawRecord) (i : nat) (d : Z) :
  days rs !! i = Some d -> day_totals f rs !! i = Some (int64 (total_on f d rs)).
Proof. intros Hd. by rewrite day_totals_total_on, list_lookup_fmap, Hd. Qed.

Lemma sum_day_totals (f : RawRecord -> Z) (rs : list RawRecord) :
  int64 (sum_Z (day_totals f rs)) = int64 (sum_Z (map f rs)).
Proof.
  unfold day_totals, days. by rewrite group_sums_total, keyed_sum_day_keys.
Qed.

Lemma nrows_joined_index (i : Index) : index_len (joined_index i) = index_len i.
Proof.
  unfold joined_index. destruct (Nat.eqb_spec (index_len i) 0) as [E|E]; [|done].
  by rewrite E.
Qed.

(** ** The cell on a raw table *)

(** Runs the frame operations as far as the column names decide them. *)
Ltac run_frame :=
  cbn [traverse bind flat_map app map fst existsb orb String.append
       df_columns df_index get_column String.eqb Ascii.eqb Bool.eqb
       gb_grouper gb_by gb_obj sum_groups shift_series series_len].

Lemma group_keys_raw (rs : list RawRecord) :
  group_keys (Datetime64 (map (fun r => Ts (date r)) rs))
  = Some (day_keys rs, fun ks => Datetime64 (map Ts ks)).
Proof. unfold group_keys, day_keys. by rewrite map_map. Qed.

Lemma national_aggregates_raw (rs : list RawRecord) :
  national_aggregates (raw_table rs) = Ok (grouped_table rs).
Proof.
  unfold national_aggregates, raw_table, loc, getitem. run_frame.
  unfold groupby. run_frame. cbn [index_name]. rewrite decide_False by done. run_frame.
  unfold agg_sum. run_frame. rewrite group_keys_raw.
  unfold reset_index, has_column. run_frame.
  unfold grouped_table, day_totals, days. by rewrite length_map.
Qed.

(** The second assignment on a table of dates and integer counts that
    has no cobweb column yet. *)
Lemma with_cobweb_counts (n : nat) (dates : Series) (cs dd : list Z) :
  with_cobweb {| df_index := RangeIndex n;
                 df_columns := [("date", dates); ("cases", Int64 cs); ("deaths", Int64 dd)] |}
  = Ok {| df_index := joined_index (RangeIndex n);
          df_columns := [("date", dates); ("cases", Int64 cs); ("deaths", Int64 dd);
                         ("cobweb_cases", Int64 (shift_list 0%Z cs));
                         ("cobweb_deaths", Int64 (shift_list 0%Z dd))] |}.
Proof.
  unfold with_cobweb, getitem_columns, loc, getitem, shift, join, add_prefix. run_frame.
  change (overlap _ _) with (@nil string). by rewrite Nat.eqb_refl.
Qed.

Lemma with_cobweb_grouped (rs : list RawRecord) :
  with_cobweb (grouped_table rs) = Ok (daily_table rs).
Proof. apply with_cobweb_counts. Qed.

Lemma cell_aggregate_raw (rs : list RawRecord) (ns : gmap string DataFrame) :
  ns !! "df_full" = Some (raw_table rs) ->
  cell_aggregate ns = Ok (<["df_plot" := daily_table rs]> ns).
Proof.
  intros Hfull. unfold cell_aggregate, load_name. rewrite Hfull. cbn [bind].
  rewrite national_aggregates_raw. cbn [bind].
  rewrite lookup_insert_eq. cbn [bind].
  rewrite with_cobweb_grouped. cbn [bind].
  by rewrite insert_insert_eq.
Qed.

Lemma Aggregator_raw (rs : list RawRecord) :
  Aggregator (raw_table rs) = Ok (daily_table rs).
Proof.
  unfold Aggregator.
  rewrite (cell_aggregate_raw rs) by apply lookup_singleton_eq.
  cbn [bind]. unfold load_name. by rewrite lookup_insert_eq.
Qed.

Lemma nrows_daily_table (rs : list RawRecord) : nrows (daily_table rs) = length (days rs).
Proof. unfold nrows. cbn [daily_table df_index]. apply nrows_joined_index. Qed.

(** ** Shifted columns *)

Lemma length_shift_list {A} (fill : A) (xs : list A) :
  length (shift_list fill xs) = length xs.
Proof. unfold shift_list. rewrite length_take. simpl. lia. Qed.

Lemma shift_list_first {A} (fill : A) (xs : list A) :
  0 < length xs -> shift_list fill xs !! 0 = Some fill.
Proof. destruct xs; simpl; [lia|done]. Qed.

Lemma shift_list_next {A} (fill : A) (xs : list A) (i : nat) :
  0 < i < length xs -> shift_list fill xs !! i = xs !! (i - 1).
Proof.
  intros Hi. unfold shift_list. rewrite lookup_take_lt by lia.
  destruct i as [|i]; [lia|]. simpl. by rewrite Nat.sub_0_r.
Qed.

Lemma daily_table_shifted (f : RawRecord -> Z) (rs : list RawRecord) (src dst : string) :
  get_column src (df_columns (daily_table rs)) = Some (Int64 (day_totals f rs)) ->
  get_column dst (df_columns (daily_table rs))
  = Some (Int64 (shift_list 0%Z (day_totals f rs))) ->
  shifted_from (daily_table rs) src dst.
Proof.
  intros Hsrc Hdst. unfold shifted_from, at_. rewrite Hsrc, Hdst, nrows_daily_table.
  cbn [mbind option_bind series_at].
  rewrite <- (length_day_totals f rs). split.
  - intros Hn. by rewrite shift_list_first.
  - intros i Hi. rewrite shift_list_next by done.
    destruct (lookup_lt_is_Some_2 (day_totals f rs) (i - 1)) as [z Hz]; [lia|].
    exists z. by rewrite Hz.
Qed.

(** ** The properties of the aggregation *)

(** C1: in the daily totals of every raw table, the shifted (cobweb)
    cases value of each row after the first is the summed cases value of
    the row before it, and the shifted value of the first row is the
    integer 0, a value and not a missing entry; the same for deaths. *)
Theorem cobweb_columns_hold_previous_row (rs : list RawRecord) :
  exists df, Aggregator (raw_table rs) = Ok df /\
    shifted_from df "cases" "cobweb_cases" /\
    shifted_from df "deaths" "cobweb_deaths".
Proof.
  exists (daily_table rs). split; [apply Aggregator_raw|].
  split; [apply (daily_table_shifted cases)|apply (daily_table_shifted deaths)];
    reflexivity.
Qed.

(** C2: the cases column of the daily totals sums to what the cases
    column of the raw table sums to, and likewise for deaths.  The sums
    are the 64-bit sums of the integer columns; they are the exact
    totals of the raw counts whenever these totals fit in 64 bits. *)
Theorem aggregation_preserves_total_mass (rs : list RawRecord) :
  exists df, Aggregator (raw_table rs) = Ok df /\
    column_sum "cases" df = column_sum "cases" (raw_table rs) /\
    column_sum "deaths" df = column_sum "deaths" (raw_table rs) /\
    column_sum "cases" (raw_table rs) = Some (int64 (sum_Z (map cases rs))) /\
    column_sum "deaths" (raw_table rs) = Some (int64 (sum_Z (map deaths rs))) /\
    (in_int64 (sum_Z (map cases rs)) ->
       column_sum "cases" df = Some (sum_Z (map cases rs))) /\
    (in_int64 (sum_Z (map deaths rs)) ->
       column_sum "deaths" df = Some (sum_Z (map deaths rs))).
Proof.
  exists (daily_table rs). split; [apply Aggregator_raw|].
  unfold column_sum.
  cbn [daily_table raw_table df_columns get_column String.eqb Ascii.eqb Bool.eqb
       mbind option_bind series_sum].
  rewrite !sum_day_totals. repeat split; try done; intros H; by rewrite int64_exact.
Qed.

(** C3: the daily totals have exactly one row per distinct date of the
    raw table: their dates are pairwise different, are exactly the dates
    some raw row carries (so a date without a raw row never appears),
    and the row count is the number of distinct dates. *)
Theorem one_row_per_distinct_date (rs : list RawRecord) :
  exists df ds, Aggregator (raw_table rs) = Ok df /\
    get_column "date" (df_columns df) = Some (Datetime64 (map Ts ds)) /\
    NoDup ds /\
    (forall d, d ∈ ds <-> exists r, r ∈ rs /\ date r = d) /\
    nrows df = length ds /\
    nrows df = size (distinct_dates rs).
Proof.
  exists (daily_table rs), (days rs). split; [apply Aggregator_raw|].
  split; [reflexivity|].
  split; [apply StronglySorted_lt_NoDup, days_sorted|].
  split; [intros d; apply elem_of_days|].
  split; [apply nrows_daily_table|]. rewrite nrows_daily_table. apply length_days.
Qed.

(** C4: the rows of the daily totals are in ascending date order, and
    the cases and deaths of each row are the sums of those fields over
    all raw rows of that date: their 64-bit sums, which are the exact
    sums whenever these fit in 64 bits. *)
Theorem daily_rows_sorted_and_summed (rs : list RawRecord) :
  exists df ds, Aggregator (raw_table rs) = Ok df /\
    get_column "date" (df_columns df) = Some (Datetime64 (map Ts ds)) /\
    nrows df = length ds /\
    StronglySorted Z.lt ds /\
    (forall i d, ds !! i = Some d ->
       at_ df i "date" = Some (CTime (Ts d)) /\
       at_ df i "cases" = Some (CInt (int64 (total_on cases d rs))) /\
       at_ df i "deaths" = Some (CInt (int64 (total_on deaths d rs))) /\
       (in_int64 (total_on cases d rs) ->
          at_ df i "cases" = Some (CInt (total_on cases d rs))) /\
       (in_int64 (total_on deaths d rs) ->
          at_ df i "deaths" = Some (CInt (total_on deaths d rs)))).
Proof.
  exists (daily_table rs), (days rs). split; [apply Aggregator_raw|].
  split; [reflexivity|]. split; [apply nrows_daily_table|]. split; [apply days_sorted|].
  intros i d Hd. unfold at_.
  cbn [daily_table df_columns get_column String.eqb Ascii.eqb Bool.eqb
       mbind option_bind series_at].
  rewrite list_lookup_fmap, Hd, !(lookup_day_totals _ _ _ _ Hd).
  repeat split; try done; intros H; by rewrite int64_exact.
Qed.

(** C5: the scenario of the spec: two rows dated 2020-01-21 with cases
    1 and 0 and no deaths, one row dated 2020-01-22 with 2 cases and 1
    death, whatever their counties, give the two daily totals
    (2020-01-21, 1, 0, 0, 0) and (2020-01-22, 2, 1, 1, 0). *)
Theorem scenario_daily_totals (c1 s1 c2 s2 c3 s3 : string) (f1 f2 f3 : option Z) :
  Aggregator (raw_table [mkRawRecord (midnight 2020 1 21) c1 s1 f1 1 0;
                         mkRawRecord (midnight 2020 1 21) c2 s2 f2 0 0;
                         mkRawRecord (midnight 2020 1 22) c3 s3 f3 2 1])
  = Ok {| df_index := RangeIndex 2;
          df_columns :=
            [("date", Datetime64 [Ts (midnight 2020 1 21); Ts (midnight 2020 1 22)]);
             ("cases", Int64 [1; 2]%Z);
             ("deaths", Int64 [0; 1]%Z);
             ("cobweb_cases", Int64 [0; 1]%Z);
             ("cobweb_deaths", Int64 [0; 0]%Z)] |}.
Proof. rewrite Aggregator_raw. reflexivity. Qed.

(** C7: the daily totals have exactly the five columns date, cases,
    deaths, cobweb_cases and cobweb_deaths, a timestamp column followed
    by four integer columns; county, state and fips are not among
    them. *)
Theorem daily_table_has_five_columns (rs : list RawRecord) :
  exists df ds cs dts ccs cds, Aggregator (raw_table rs) = Ok df /\
    df_columns df = [("date", Datetime64 ds); ("cases", Int64 cs); ("deaths", Int64 dts);
                     ("cobweb_cases", Int64 ccs); ("cobweb_deaths", Int64 cds)] /\
    column_names df = ["date"; "cases"; "deaths"; "cobweb_cases"; "cobweb_deaths"] /\
    get_column "county" (df_columns df) = None /\
    get_column "state" (df_columns df) = None /\
    get_column "fips" (df_columns df) = None.
Proof.
  exists (daily_table rs). do 5 eexists.
  split; [apply Aggregator_raw|]. split; [reflexivity|]. done.
Qed.

(** C9: running the aggregation cell leaves the raw table as it was:
    the cell succeeds, [df_full] is still the same table, and no name
    other than [df_plot] is rebound. *)
Theorem raw_table_unchanged (rs : list RawRecord) (ns : gmap string DataFrame) :
  ns !! "df_full" = Some (raw_table rs) ->
  exists ns', cell_aggregate ns = Ok ns' /\
    ns' !! "df_full" = Some (raw_table rs) /\
    (forall name, name <> "df_plot" -> ns' !! name = ns !! name).
Proof.
  intros Hfull. exists (<["df_plot" := daily_table rs]> ns).
  split; [by apply cell_aggregate_raw|].
  split; [by rewrite lookup_insert_ne|].
  intros name Hname. by rewrite lookup_insert_ne.
Qed.

Lemma Aggregator_header_only : Aggregator header_only_loaded = Raise (KeyError "cases").
Proof. vm_compute. reflexivity. Qed.

(** The table without rows as the loading cell makes it, whatever the
    date parser. *)
Example header_only_is_loaded (parse_date : string -> DateParse) :
  cell_load parse_date (Ok header_only_fetched) ∅
  = Ok {["df_full" := header_only_loaded]}.
Proof.
  unfold cell_load, load_name, getitem. cbn [bind]. rewrite lookup_insert_eq.
  cbn [bind header_only_fetched df_columns get_column String.eqb Ascii.eqb Bool.eqb
       to_datetime traverse].
  by rewrite insert_insert_eq, insert_empty.
Qed.

(** The table without rows that the loading cell makes of a file with
    a header line only is not aggregated: the cell raises. *)
Lemma header_only_table_is_not_aggregated :
  ~ exists df, Aggregator header_only_loaded = Ok df.
Proof. intros [df Hdf]. rewrite Aggregator_header_only in Hdf. discriminate Hdf. Qed.

(** C10: on the table without rows whose count columns are integer
    columns the aggregation succeeds and gives the table without rows,
    with the same five columns; on the table without rows that the
    loading cell makes of a file with a header line only, whose columns
    are object columns, it raises a KeyError for the count columns,
    which the sum has left out. *)
Theorem empty_table_gives_empty_totals :
  (exists df, Aggregator (raw_table []) = Ok df /\
     nrows df = 0 /\
     column_names df = ["date"; "cases"; "deaths"; "cobweb_cases"; "cobweb_deaths"] /\
     df_columns df = [("date", Datetime64 []); ("cases", Int64 []); ("deaths", Int64 []);
                      ("cobweb_cases", Int64 []); ("cobweb_deaths", Int64 [])]) /\
  (exists k, Aggregator header_only_loaded = Raise (KeyError k) /\
     k ∈ ["cases"; "deaths"]).
Proof.
  split.
  - exists (daily_table []). split; [apply Aggregator_raw|]. by repeat split.
  - exists "cases". split; [apply Aggregator_header_only|apply list_elem_of_here].
Qed.

(** * The cells on loaded tables in general *)

(** ** The aggregation of a typed table *)

Lemma national_aggregates_loaded (df : DataFrame) (ts : list Timestamp) (cs dd : list Z) :
  index_name (df_index df) <> Some "date" ->
  get_column "date" (df_columns df) = Some (Datetime64 ts) ->
  get_column "cases" (df_columns df) = Some (Int64 cs) ->
  get_column "deaths" (df_columns df) = Some (Int64 dd) ->
  national_aggregates df
  = Ok {| df_index := RangeIndex (length (sorted_unique (timestamp_keys ts)));
          df_columns :=
            [("date", Datetime64 (map Ts (sorted_unique (timestamp_keys ts))));
             ("cases", Int64 (map (fun k => group_sum k (timestamp_keys ts) cs)
                                (sorted_unique (timestamp_keys ts))));
             ("deaths", Int64 (map (fun k => group_sum k (timestamp_keys ts) dd)
                                 (sorted_unique (timestamp_keys ts))))] |}.
Proof.
  intros Hidx Hdate Hc Hd.
  unfold national_aggregates, loc, getitem. cbn [traverse].
  rewrite Hdate, Hc, Hd. run_frame. unfold groupby. run_frame.
  rewrite decide_False by done. run_frame.
  unfold agg_sum. run_frame. cbn [group_keys]. fold (timestamp_keys ts).
  unfold reset_index, has_column. run_frame. by rewrite length_map.
Qed.

Lemma cell_aggregate_loaded (ns : gmap string DataFrame) (df : DataFrame)
    (ts : list Timestamp) (cs dd : list Z) :
  ns !! "df_full" = Some df ->
  index_name (df_index df) <> Some "date" ->
  get_column "date" (df_columns df) = Some (Datetime64 ts) ->
  get_column "cases" (df_columns df) = Some (Int64 cs) ->
  get_column "deaths" (df_columns df) = Some (Int64 dd) ->
  cell_aggregate ns = Ok (<["df_plot" := totals_table ts cs dd]> ns).
Proof.
  intros Hfull Hidx Hdate Hc Hd. unfold cell_aggregate, load_name.
  rewrite Hfull. cbn [bind].
  rewrite (national_aggregates_loaded df ts cs dd) by done. cbn [bind].
  rewrite lookup_insert_eq. cbn [bind].
  rewrite with_cobweb_counts. cbn [bind].
  by rewrite insert_insert_eq.
Qed.

Lemma Aggregator_loaded (df : DataFrame) (ts : list Timestamp) (cs dd : list Z) :
  index_name (df_index df) <> Some "date" ->
  get_column "date" (df_columns df) = Some (Datetime64 ts) ->
  get_column "cases" (df_columns df) = Some (Int64 cs) ->
  get_column "deaths" (df_columns df) = Some (Int64 dd) ->
  Aggregator df = Ok (totals_table ts cs dd).
Proof.
  intros Hidx Hdate Hc Hd. unfold Aggregator.
  rewrite (cell_aggregate_loaded _ df ts cs dd) by (done || apply lookup_singleton_eq).
  cbn [bind]. unfold load_name. by rewrite lookup_insert_eq.
Qed.

Lemma get_column_elem_of (name : string) (s : Series) (cols : list (string * Series)) :
  get_column name cols = Some s -> (name, s) ∈ cols.
Proof.
  induction cols as [|[n c] cols IH]; [done|]. cbn [get_column].
  destruct (String.eqb_spec n name) as [->|Hne].
  - intros [= ->]. apply list_elem_of_here.
  - intros H. by apply list_elem_of_further, IH.
Qed.

Lemma frame_ok_column_len (df : DataFrame) (name : string) (s : Series) :
  frame_ok df -> get_column name (df_columns df) = Some s -> series_len s = nrows df.
Proof.
  intros [_ Hrect] Hcol. rewrite Forall_forall in Hrect.
  by apply (Hrect (name, s)), get_column_elem_of.
Qed.

Lemma length_insert_key (k : Z) (l : list Z) : length (insert_key k l) <= S (length l).
Proof.
  induction l as [|x l IH]; cbn [insert_key]; [done|].
  destruct (k <? x)%Z; [done|]. destruct (k =? x)%Z; cbn [length]; lia.
Qed.

(** Grouping never makes rows. *)
Lemma length_sorted_unique (ks : list (option Z)) :
  length (sorted_unique ks) <= length ks.
Proof.
  induction ks as [|[k|] ks IH]; cbn [sorted_unique foldr length]; [done| |].
  - fold (sorted_unique ks). pose proof (length_insert_key k (sorted_unique ks)). lia.
  - fold (sorted_unique ks). lia.
Qed.

Lemma elem_of_timestamp_keys (t : Z) (ts : list Timestamp) :
  Some t ∈ timestamp_keys ts <-> Ts t ∈ ts.
Proof.
  unfold timestamp_keys. rewrite list_elem_of_fmap. split.
  - intros ([|t'] & Heq & Hin); [done|]. by injection Heq as ->.
  - intros Hin. by exists (Ts t).
Qed.

(** When every row carries a key, the keyed sum is the plain sum. *)
Lemma keyed_sum_all_dated (ts : list Timestamp) (xs : list Z) :
  NaT ∉ ts -> length xs = length ts ->
  keyed_sum (timestamp_keys ts) xs = sum_Z xs.
Proof.
  revert xs. induction ts as [|t ts IH]; intros [|x xs] Hnat Hlen; try done.
  cbn [timestamp_keys map keyed_sum]. fold (timestamp_keys ts).
  rewrite sum_Z_cons, IH.
  - destruct t; [|done]. exfalso. apply Hnat, list_elem_of_here.
  - intros Hin. by apply Hnat, list_elem_of_further.
  - by injection Hlen.
Qed.

(** The exact total of a group is the sum over the rows of its date. *)
Lemma group_total_dated_total (t : Z) (ts : list Timestamp) (xs : list Z) :
  group_total t (timestamp_keys ts) xs = dated_total t ts xs.
Proof.
  unfold dated_total. revert xs. induction ts as [|t' ts IH]; intros [|x xs]; try done.
  cbn [timestamp_keys map group_total zip zip_with]. fold (timestamp_keys ts).
  rewrite IH, filter_cons. cbn [fst].
  destruct t' as [|k]; cbn [in_group].
  - rewrite decide_False by done. lia.
  - destruct (Z.eqb_spec k t) as [->|Hne].
    + rewrite decide_True by done. by rewrite fmap_cons, sum_Z_cons.
    + rewrite decide_False by congruence. lia.
Qed.

Lemma nrows_totals_table (ts : list Timestamp) (cs dd : list Z) :
  nrows (totals_table ts cs dd) = length (sorted_unique (timestamp_keys ts)).
Proof. unfold nrows. cbn [totals_table df_index]. apply nrows_joined_index. Qed.

(** X1: on any loaded table whose index is not named date, with a
    timestamp date column and integer cases and deaths columns,
    whatever its other columns, the aggregation succeeds; its outcome
    has the five columns, pairwise different labels, as many cells in
    every column as rows, and no more rows than the loaded table. *)
Theorem aggregation_succeeds_on_loaded_tables
    (df : DataFrame) (ts : list Timestamp) (cs dd : list Z) :
  frame_ok df ->
  index_name (df_index df) <> Some "date" ->
  get_column "date" (df_columns df) = Some (Datetime64 ts) ->
  get_column "cases" (df_columns df) = Some (Int64 cs) ->
  get_column "deaths" (df_columns df) = Some (Int64 dd) ->
  exists df', Aggregator df = Ok df' /\
    column_names df' = ["date"; "cases"; "deaths"; "cobweb_cases"; "cobweb_deaths"] /\
    frame_ok df' /\
    nrows df' <= nrows df.
Proof.
  intros Hok Hidx Hdate Hc Hd. exists (totals_table ts cs dd).
  split; [by apply Aggregator_loaded|]. split; [reflexivity|]. split; [split|].
  - cbn [totals_table column_names df_columns map fst].
    match goal with |- ?G => apply (bool_decide_unpack G) end. by vm_compute.
  - rewrite nrows_totals_table. cbn [totals_table df_columns].
    repeat apply Forall_cons_2; try apply Forall_nil_2; cbn [snd series_len];
      by rewrite ?length_shift_list, ?length_map.
  - rewrite nrows_totals_table, <- (frame_ok_column_len df "date" _ Hok Hdate).
    cbn [series_len].
    etrans; [apply length_sorted_unique|]. unfold timestamp_keys. by rewrite length_map.
Qed.

(** X2: the totals count the dated rows only.  The cases (deaths)
    column of the outcome has the 64-bit sum of the cases (deaths) of
    the rows whose date is not missing: a row without a date belongs to
    no day and is left out.  When no date is missing the column sums of
    the loaded table are kept. *)
Theorem totals_count_the_dated_rows
    (df : DataFrame) (ts : list Timestamp) (cs dd : list Z) :
  frame_ok df ->
  index_name (df_index df) <> Some "date" ->
  get_column "date" (df_columns df) = Some (Datetime64 ts) ->
  get_column "cases" (df_columns df) = Some (Int64 cs) ->
  get_column "deaths" (df_columns df) = Some (Int64 dd) ->
  exists df', Aggregator df = Ok df' /\
    column_sum "cases" df' = Some (int64 (keyed_sum (timestamp_keys ts) cs)) /\
    column_sum "deaths" df' = Some (int64 (keyed_sum (timestamp_keys ts) dd)) /\
    (NaT ∉ ts ->
       column_sum "cases" df' = column_sum "cases" df /\
       column_sum "deaths" df' = column_sum "deaths" df).
Proof.
  intros Hok Hidx Hdate Hc Hd. exists (totals_table ts cs dd).
  split; [by apply Aggregator_loaded|].
  assert (Hlen : forall name xs, get_column name (df_columns df) = Some (Int64 xs) ->
            length xs = length ts).
  { intros name xs Hxs.
    pose proof (frame_ok_column_len df name _ Hok Hxs) as H1.
    pose proof (frame_ok_column_len df "date" _ Hok Hdate) as H2.
    cbn [series_len] in H1, H2. congruence. }
  unfold column_sum. rewrite Hc, Hd.
  cbn [totals_table df_columns get_column String.eqb Ascii.eqb Bool.eqb
       mbind option_bind series_sum].
  rewrite !group_sums_total. split; [done|]. split; [done|]. intros Hnat.
  by rewrite !keyed_sum_all_dated by eauto.
Qed.

(** X3: on any loaded table whose index is not named date, the dates
    of the outcome are the distinct dates the table carries, in
    strictly ascending order, one row each; a missing date (NaT) never
    becomes a row. *)
Theorem totals_dates_are_the_dates_present
    (df : DataFrame) (ts : list Timestamp) (cs dd : list Z) :
  frame_ok df ->
  index_name (df_index df) <> Some "date" ->
  get_column "date" (df_columns df) = Some (Datetime64 ts) ->
  get_column "cases" (df_columns df) = Some (Int64 cs) ->
  get_column "deaths" (df_columns df) = Some (Int64 dd) ->
  exists df' ds, Aggregator df = Ok df' /\
    get_column "date" (df_columns df') = Some (Datetime64 (map Ts ds)) /\
    nrows df' = length ds /\
    StronglySorted Z.lt ds /\
    (forall t, t ∈ ds <-> Ts t ∈ ts) /\
    (forall i, at_ df' i "date" <> Some (CTime NaT)).
Proof.
  intros _ Hidx Hdate Hc Hd.
  exists (totals_table ts cs dd), (sorted_unique (timestamp_keys ts)).
  split; [by apply Aggregator_loaded|]. split; [reflexivity|].
  split; [apply nrows_totals_table|].
  split; [apply sorted_unique_sorted|]. split.
  - intros t. by rewrite elem_of_sorted_unique, elem_of_timestamp_keys.
  - intros i. unfold at_.
    cbn [totals_table df_columns get_column String.eqb Ascii.eqb Bool.eqb
         mbind option_bind series_at].
    rewrite list_lookup_fmap. by destruct (_ !! i).
Qed.

(** ** Errors and re-runs *)

(** X4: a loaded table that lacks one of the columns date, cases,
    deaths makes the aggregation cell raise a KeyError for a label that
    is missing. *)
Theorem missing_column_is_a_key_error
    (ns : gmap string DataFrame) (df : DataFrame) (name : string) :
  ns !! "df_full" = Some df ->
  name ∈ ["date"; "cases"; "deaths"] ->
  get_column name (df_columns df) = None ->
  exists k, cell_aggregate ns = Raise (KeyError k) /\
    k ∈ ["date"; "cases"; "deaths"] /\
    get_column k (df_columns df) = None.
Proof.
  intros Hfull Hname Hmiss. unfold cell_aggregate, load_name. rewrite Hfull. cbn [bind].
  unfold national_aggregates, loc, getitem. cbn [traverse].
  destruct (get_column "date" (df_columns df)) as [s1|] eqn:E1; cbn [bind];
    [|exists "date"; split; [done|]; split; [apply list_elem_of_here|done]].
  destruct (get_column "cases" (df_columns df)) as [s2|] eqn:E2; cbn [bind];
    [|exists "cases"; split; [done|];
      split; [apply list_elem_of_further, list_elem_of_here|done]].
  destruct (get_column "deaths" (df_columns df)) as [s3|] eqn:E3; cbn [bind];
    [|exists "deaths"; split; [done|];
      split; [do 2 apply list_elem_of_further; apply list_elem_of_here|done]].
  exfalso. rewrite !elem_of_cons, elem_of_nil in Hname.
  destruct Hname as [->|[->|[->|[]]]]; congruence.
Qed.





(** X6: the daily totals read the columns date, cases and deaths and
    nothing else: two loaded tables whose index is not named date and
    that hold the same timestamp date column and the same integer cases
    and deaths columns, whatever their other columns and the order of
    their columns, have the same outcome. *)
Theorem aggregation_reads_three_columns_only
    (df1 df2 : DataFrame) (ts : list Timestamp) (cs dd : list Z) :
  frame_ok df1 -> frame_ok df2 ->
  index_name (df_index df1) <> Some "date" ->
  index_name (df_index df2) <> Some "date" ->
  get_column "date" (df_columns df1) = Some (Datetime64 ts) ->
  get_column "cases" (df_columns df1) = Some (Int64 cs) ->
  get_column "deaths" (df_columns df1) = Some (Int64 dd) ->
  get_column "date" (df_columns df2) = Some (Datetime64 ts) ->
  get_column "cases" (df_columns df2) = Some (Int64 cs) ->
  get_column "deaths" (df_columns df2) = Some (Int64 dd) ->
  Aggregator df1 = Aggregator df2.
Proof.
  intros _ _ Hi1 Hi2 Ha1 Hb1 Hc1 Ha2 Hb2 Hc2.
  by rewrite (Aggregator_loaded df1 ts cs dd), (Aggregator_loaded df2 ts cs dd).
Qed.

(** ** Row order and sign *)

Lemma sum_Z_Permutation (xs ys : list Z) : xs ≡ₚ ys -> sum_Z xs = sum_Z ys.
Proof.
  induction 1 as [|x xs ys _ IH|x y xs|xs ys zs _ IH1 _ IH2]; rewrite ?sum_Z_cons.
  - done.
  - by rewrite IH.
  - lia.
  - by rewrite IH1.
Qed.

Lemma total_on_Permutation (f : RawRecord -> Z) (d : Z) (rs rs' : list RawRecord) :
  rs ≡ₚ rs' -> total_on f d rs = total_on f d rs'.
Proof.
  intros Hp. unfold total_on. apply sum_Z_Permutation.
  apply (fmap_Permutation f). by apply filter_Permutation.
Qed.

(** Two strictly ascending lists with the same elements are the same
    list. *)
Lemma strictly_sorted_ext (l1 l2 : list Z) :
  StronglySorted Z.lt l1 -> StronglySorted Z.lt l2 ->
  (forall x, x ∈ l1 <-> x ∈ l2) -> l1 = l2.
Proof.
  intros H1. revert l2. induction H1 as [|a l1 Hs1 IH Ha]; intros l2 H2 Hext.
  - destruct l2 as [|b l2]; [done|].
    exfalso. apply (not_elem_of_nil b), Hext, list_elem_of_here.
  - destruct H2 as [|b l2 Hs2 Hb].
    + exfalso. apply (not_elem_of_nil a), Hext, list_elem_of_here.
    + rewrite Forall_forall in Ha, Hb.
      assert (a = b) as <-.
      { pose proof (proj1 (Hext a) (list_elem_of_here _ _)) as Hab.
        pose proof (proj2 (Hext b) (list_elem_of_here _ _)) as Hba.
        apply elem_of_cons in Hab as [?|Hab]; [done|].
        apply elem_of_cons in Hba as [?|Hba]; [done|].
        apply Hb in Hab. apply Ha in Hba. lia. }
      f_equal. apply IH; [done|]. intros x. split; intros Hx.
      * pose proof (proj1 (Hext x) (list_elem_of_further _ _ _ Hx)) as Hx'.
        apply elem_of_cons in Hx' as [->|?]; [|done]. apply Ha in Hx. lia.
      * pose proof (proj2 (Hext x) (list_elem_of_further _ _ _ Hx)) as Hx'.
        apply elem_of_cons in Hx' as [->|?]; [|done]. apply Hb in Hx. lia.
Qed.

Lemma days_Permutation (rs rs' : list RawRecord) : rs ≡ₚ rs' -> days rs = days rs'.
Proof.
  intros Hp. apply strictly_sorted_ext; [apply days_sorted..|].
  intros d. rewrite !elem_of_days.
  split; intros (r & Hr & Hd); exists r; (split; [|done]).
  - by rewrite <- Hp.
  - by rewrite Hp.
Qed.

Lemma day_totals_Permutation (f : RawRecord -> Z) (rs rs' : list RawRecord) :
  rs ≡ₚ rs' -> day_totals f rs = day_totals f rs'.
Proof.
  intros Hp. rewrite !day_totals_total_on, (days_Permutation rs rs') by done.
  apply map_ext. intros d. f_equal. by apply total_on_Permutation.
Qed.

(** X7: the order of the rows of the raw table does not matter: a
    table with the same rows in another order has the same daily
    totals. *)
Theorem aggregation_ignores_row_order (rs rs' : list RawRecord) :
  rs ≡ₚ rs' -> Aggregator (raw_table rs) = Aggregator (raw_table rs').
Proof.
  intros Hp. rewrite !Aggregator_raw. unfold daily_table.
  by rewrite (days_Permutation rs rs'), !(day_totals_Permutation _ rs rs').
Qed.

Lemma sum_Z_nonneg (xs : list Z) : Forall (fun x => (0 <= x)%Z) xs -> (0 <= sum_Z xs)%Z.
Proof. induction 1 as [|x xs Hx _ IH]; [done|]. rewrite sum_Z_cons. lia. Qed.

(** Among counts that are not negative, the total of a day is between
    0 and the total of the table. *)
Lemma total_on_bounds (f : RawRecord -> Z) (d : Z) (rs : list RawRecord) :
  (forall r, r ∈ rs -> (0 <= f r)%Z) ->
  (0 <= total_on f d rs <= sum_Z (map f rs))%Z.
Proof.
  intros Hpos. unfold total_on. induction rs as [|r rs IH]; [done|].
  rewrite filter_cons. cbn [map]. rewrite sum_Z_cons.
  assert (0 <= sum_Z (map f (filter (fun r => date r = d) rs)) <= sum_Z (map f rs))%Z as IH'.
  { apply IH. intros r' Hr'. by apply Hpos, list_elem_of_further. }
  pose proof (Hpos r (list_elem_of_here _ _)).
  destruct (decide (date r = d)); [|lia].
  cbn [map]. rewrite sum_Z_cons. lia.
Qed.

Lemma elem_of_shift_list {A} (fill x : A) (xs : list A) :
  x ∈ shift_list fill xs -> x = fill \/ x ∈ xs.
Proof.
  unfold shift_list. intros Hin%elem_of_take. destruct Hin as (i & Hi & _).
  destruct i as [|i]; simpl in Hi.
  - left. congruence.
  - right. by eapply list_elem_of_lookup_2.
Qed.

Lemma day_totals_nonneg (f : RawRecord -> Z) (rs : list RawRecord) (z : Z) :
  (forall r, r ∈ rs -> (0 <= f r)%Z) -> in_int64 (sum_Z (map f rs)) ->
  z ∈ day_totals f rs -> (0 <= z)%Z.
Proof.
  intros Hpos Hfit. rewrite day_totals_total_on, list_elem_of_fmap.
  intros (d & -> & _). pose proof (total_on_bounds f d rs Hpos) as Hb.
  rewrite int64_exact; [lia|]. unfold in_int64 in *. lia.
Qed.

(** X8: counts that are not negative give totals that are not
    negative, as long as the 64 bits hold them: when no raw record has
    a negative cases or deaths count and the totals of the two columns
    fit in 64 bits, no cell of cases, deaths, cobweb_cases or
    cobweb_deaths is negative. *)
Theorem totals_of_nonnegative_counts_are_nonnegative (rs : list RawRecord) :
  (forall r, r ∈ rs -> (0 <= cases r)%Z /\ (0 <= deaths r)%Z) ->
  in_int64 (sum_Z (map cases rs)) ->
  in_int64 (sum_Z (map deaths rs)) ->
  exists df, Aggregator (raw_table rs) = Ok df /\
    forall name i z,
      name ∈ ["cases"; "deaths"; "cobweb_cases"; "cobweb_deaths"] ->
      at_ df i name = Some (CInt z) -> (0 <= z)%Z.
Proof.
  intros Hpos Hfc Hfd. exists (daily_table rs). split; [apply Aggregator_raw|].
  assert (Hc : forall r, r ∈ rs -> (0 <= cases r)%Z) by (intros r Hr; by apply Hpos).
  assert (Hd : forall r, r ∈ rs -> (0 <= deaths r)%Z) by (intros r Hr; by apply Hpos).
  intros name i z Hname. rewrite !elem_of_cons, elem_of_nil in Hname.
  unfold at_.
  destruct Hname as [->|[->|[->|[->|[]]]]];
    cbn [daily_table df_columns get_column String.eqb Ascii.eqb Bool.eqb
         mbind option_bind series_at];
    destruct (_ !! i) as [z'|] eqn:Hz; cbn [fmap option_fmap option_map]; try done;
    intros [= <-]; apply list_elem_of_lookup_2 in Hz.
  - exact (day_totals_nonneg cases rs _ Hc Hfc Hz).
  - exact (day_totals_nonneg deaths rs _ Hd Hfd Hz).
  - apply elem_of_shift_list in Hz as [->|Hz]; [done|].
    exact (day_totals_nonneg cases rs _ Hc Hfc Hz).
  - apply elem_of_shift_list in Hz as [->|Hz]; [done|].
    exact (day_totals_nonneg deaths rs _ Hd Hfd Hz).
Qed.

(** ** The loading cell on tables that parse *)

Lemma to_timestamp_parses (parse_date : string -> DateParse) (xs : list (option string)) :
  (forall text, Some text ∈ xs -> exists t, parse_date text = Parsed t) ->
  exists ts, traverse (to_timestamp parse_date) xs = Ok ts /\ length ts = length xs.
Proof.
  induction xs as [|x xs IH]; intros Hall; [by exists []|].
  destruct IH as (ts & Hts & Hlen).
  { intros text Hin. by apply Hall, list_elem_of_further. }
  cbn [traverse]. rewrite Hts. destruct x as [t|]; cbn [to_timestamp].
  - destruct (Hall t) as [n ->]; [apply list_elem_of_here|].
    exists (Ts n :: ts). split; [done|]. simpl. by rewrite Hlen.
  - exists (NaT :: ts). split; [done|]. simpl. by rewrite Hlen.
Qed.

Lemma get_column_set_column_eq (name : string) (s : Series) (cols : list (string * Series)) :
  get_column name (set_column name s cols) = Some s.
Proof.
  induction cols as [|[n c] cols IH]; cbn [set_column get_column].
  - by rewrite String.eqb_refl.
  - destruct (String.eqb n name) eqn:E; cbn [get_column]; by rewrite E.
Qed.

Lemma get_column_set_column_ne (name name' : string) (s : Series)
    (cols : list (string * Series)) :
  name' <> name -> get_column name' (set_column name s cols) = get_column name' cols.
Proof.
  intros Hne. induction cols as [|[n c] cols IH]; cbn [set_column get_column].
  - destruct (String.eqb_spec name name'); [congruence|done].
  - destruct (String.eqb_spec n name) as [->|]; cbn [get_column].
    + destruct (String.eqb_spec name name'); [congruence|done].
    + by rewrite IH.
Qed.

(** Assigning to a column that exists keeps the labels and their
    order. *)
Lemma names_set_column (name : string) (s c : Series) (cols : list (string * Series)) :
  get_column name cols = Some c -> map fst (set_column name s cols) = map fst cols.
Proof.
  induction cols as [|[n c'] cols IH]; [done|]. cbn [set_column get_column].
  destruct (String.eqb n name); [done|]. intros H. cbn [map fst]. by rewrite IH.
Qed.

Lemma Forall_set_column (P : string * Series -> Prop) (name : string) (s : Series)
    (cols : list (string * Series)) :
  (forall n, P (n, s)) -> Forall P cols -> Forall P (set_column name s cols).
Proof.
  intros Hs. induction 1 as [|[n c] cols Hc Hcols IH]; cbn [set_column].
  - by repeat constructor.
  - destruct (String.eqb n name); constructor; done.
Qed.

Lemma to_timestamp_Forall2 (parse_date : string -> DateParse)
    (xs : list (option string)) (ts : list Timestamp) :
  traverse (to_timestamp parse_date) xs = Ok ts -> Forall2 (parsed_as parse_date) xs ts.
Proof.
  revert ts. induction xs as [|x xs IH]; intros ts; cbn [traverse].
  - intros [= <-]. constructor.
  - destruct x as [text|]; cbn [to_timestamp].
    + destruct (parse_date text) as [n| | | |] eqn:Hp; cbn [bind]; try done;
        (destruct (traverse (to_timestamp parse_date) xs) as [ts'|]; cbn [bind]; [|done]);
        intros [= <-]; (constructor; [done|by apply IH]).
    + cbn [bind].
      destruct (traverse (to_timestamp parse_date) xs) as [ts'|]; cbn [bind]; [|done].
      intros [= <-]. constructor; [done|by apply IH].
Qed.

(** X9: when every text of the date column of the fetched table
    parses, the loading cell succeeds and binds [df_full] to that table
    with its date column turned into timestamps, row by row, a missing
    text into NaT; the other columns, the labels, their order and the
    index are those of the fetched table, and no other name of the
    kernel is rebound. *)
Theorem loading_parses_the_date_column
    (parse_date : string -> DateParse) (fetched : DataFrame)
    (ns : gmap string DataFrame) (xs : list (option string)) :
  frame_ok fetched ->
  get_column "date" (df_columns fetched) = Some (Object xs) ->
  (forall text, Some text ∈ xs -> exists t, parse_date text = Parsed t) ->
  exists ns' df ts,
    cell_load parse_date (Ok fetched) ns = Ok ns' /\
    ns' !! "df_full" = Some df /\
    (forall name, name <> "df_full" -> ns' !! name = ns !! name) /\
    get_column "date" (df_columns df) = Some (Datetime64 ts) /\
    Forall2 (parsed_as parse_date) xs ts /\
    (forall name, name <> "date" ->
       get_column name (df_columns df) = get_column name (df_columns fetched)) /\
    column_names df = column_names fetched /\
    df_index df = df_index fetched /\
    frame_ok df.
Proof.
  intros [Hnd Hrect] Hcol Hall.
  destruct (to_timestamp_parses parse_date xs Hall) as (ts & Hts & Hlen).
  exists (<["df_full" := setitem "date" (Datetime64 ts) fetched]> ns),
    (setitem "date" (Datetime64 ts) fetched), ts.
  split.
  { unfold cell_load, load_name, getitem. cbn [bind].
    rewrite lookup_insert_eq. cbn [bind]. rewrite Hcol. cbn [bind to_datetime].
    rewrite Hts. cbn [bind]. by rewrite insert_insert_eq. }
  split; [apply lookup_insert_eq|].
  split; [intros name Hname; by rewrite lookup_insert_ne|].
  cbn [setitem df_columns df_index].
  split; [apply get_column_set_column_eq|].
  split; [by apply to_timestamp_Forall2|].
  split; [intros name Hname; by apply get_column_set_column_ne|].
  assert (Hnames : column_names (setitem "date" (Datetime64 ts) fetched)
                   = column_names fetched).
  { unfold column_names. cbn [setitem df_columns]. by eapply names_set_column. }
  split; [done|]. split; [done|]. split; [by rewrite Hnames|].
  cbn [setitem df_columns nrows df_index]. apply Forall_set_column; [|done].
  intros n. cbn [snd series_len]. rewrite Hlen.
  rewrite Forall_forall in Hrect.
  exact (Hrect _ (get_column_elem_of _ _ _ Hcol)).
Qed.

(** X10: the two cells in sequence.  On a fetched table whose index is
    not named date, with date texts that all parse and integer cases
    and deaths columns, the loading cell and then the aggregation cell
    succeed, and [df_plot] has one row for each distinct date the texts
    parse to, in ascending order, none for a blank date, holding the
    64-bit sums of the cases and of the deaths of the rows of that
    date. *)
Theorem loading_then_aggregating
    (parse_date : string -> DateParse) (fetched : DataFrame)
    (ns : gmap string DataFrame) (xs : list (option string)) (cs dd : list Z) :
  frame_ok fetched ->
  index_name (df_index fetched) <> Some "date" ->
  get_column "date" (df_columns fetched) = Some (Object xs) ->
  get_column "cases" (df_columns fetched) = Some (Int64 cs) ->
  get_column "deaths" (df_columns fetched) = Some (Int64 dd) ->
  (forall text, Some text ∈ xs -> exists t, parse_date text = Parsed t) ->
  exists ns1 ns2 ts df ds,
    cell_load parse_date (Ok fetched) ns = Ok ns1 /\
    cell_aggregate ns1 = Ok ns2 /\
    Forall2 (parsed_as parse_date) xs ts /\
    ns2 !! "df_plot" = Some df /\
    get_column "date" (df_columns df) = Some (Datetime64 (map Ts ds)) /\
    StronglySorted Z.lt ds /\
    (forall t, t ∈ ds <-> Ts t ∈ ts) /\
    (forall i t, ds !! i = Some t ->
       at_ df i "cases" = Some (CInt (int64 (dated_total t ts cs))) /\
       at_ df i "deaths" = Some (CInt (int64 (dated_total t ts dd)))).
Proof.
  intros _ Hidx Hdate Hc Hd Hall.
  destruct (to_timestamp_parses parse_date xs Hall) as (ts & Hts & _).
  set (loaded := setitem "date" (Datetime64 ts) fetched).
  set (ns1 := <["df_full" := loaded]> ns).
  exists ns1, (<["df_plot" := totals_table ts cs dd]> ns1), ts, (totals_table ts cs dd),
    (sorted_unique (timestamp_keys ts)).
  split.
  { unfold cell_load, load_name, getitem. cbn [bind].
    rewrite lookup_insert_eq. cbn [bind]. rewrite Hdate. cbn [bind to_datetime].
    rewrite Hts. cbn [bind]. by rewrite insert_insert_eq. }
  split.
  { apply (cell_aggregate_loaded ns1 loaded); [apply lookup_insert_eq|done|..];
      cbn [loaded setitem df_columns].
    - apply get_column_set_column_eq.
    - by rewrite get_column_set_column_ne.
    - by rewrite get_column_set_column_ne. }
  split; [by apply to_timestamp_Forall2|].
  split; [apply lookup_insert_eq|]. split; [reflexivity|].
  split; [apply sorted_unique_sorted|].
  split; [intros t; by rewrite elem_of_sorted_unique, elem_of_timestamp_keys|].
  intros i t Hi. unfold at_.
  cbn [totals_table df_columns get_column String.eqb Ascii.eqb Bool.eqb
       mbind option_bind series_at].
  rewrite !list_lookup_fmap, Hi. cbn [fmap option_fmap option_map].
  by rewrite !group_sum_wraps, !group_total_dated_total.
Qed.

(** ** The properties at the scenario of the spec *)

Example midnight_epoch : midnight 1970 1 1 = 0%Z /\ midnight 2020 1 21 = 1579564800000000000%Z.
Proof. split; reflexivity. Qed.

(** The first and the last day whose midnight a timestamp holds. *)
Example parse_iso_date_bounds :
  parse_iso_date "1677-09-21" = OutOfBounds /\
  parse_iso_date "1677-09-22" = Parsed (midnight 1677 9 22) /\
  parse_iso_date "2262-04-11" = Parsed (midnight 2262 4 11) /\
  parse_iso_date "2262-04-12" = OutOfBounds.
Proof. repeat split; vm_compute; reflexivity. Qed.

(** A row without a date belongs to no group: the frame layer drops it,
    which no raw table can trigger since every raw record has a date. *)
Example undated_row_is_left_out :
  Aggregator table_with_undated_row
  = Ok {| df_index := RangeIndex 1;
          df_columns :=
            [("date", Datetime64 [Ts (midnight 2020 1 21)]);
             ("cases", Int64 [1]%Z); ("deaths", Int64 [0]%Z);
             ("cobweb_cases", Int64 [0]%Z); ("cobweb_deaths", Int64 [0]%Z)] |}.
Proof. vm_compute. reflexivity. Qed.

(** The sum of two counts of 2^62 does not fit in 64 bits: the total of
    the day is the wrapped sum, here the least 64-bit integer. *)
Example large_counts_wrap_around :
  exists df, Aggregator (raw_table two_large_counts) = Ok df /\
    at_ df 0 "cases" = Some (CInt (- 2 ^ 63)) /\
    column_sum "cases" df = Some (- 2 ^ 63)%Z /\
    column_sum "cases" (raw_table two_large_counts) = Some (- 2 ^ 63)%Z.
Proof. eexists. split; [vm_compute; reflexivity|]. by vm_compute. Qed.

(** A table whose index is named as its date column is refused by
    [groupby]. *)
Example index_named_date_is_ambiguous :
  Aggregator {| df_index := KeyIndex (Some "date") (Int64 [0]%Z);
                df_columns := df_columns table_without_deaths ++ [("deaths", Int64 [0]%Z)] |}
  = Raise (ValueError ["date"]).
Proof. vm_compute. reflexivity. Qed.

Lemma scenario_nrows (df : DataFrame) :
  Aggregator (raw_table scenario) = Ok df -> nrows df = 2.
Proof. rewrite Aggregator_raw. intros [= <-]. reflexivity. Qed.

Lemma cobweb_columns_hold_previous_row_witness :
  exists df, Aggregator (raw_table scenario) = Ok df /\
    0 < 1 < nrows df /\
    at_ df 0 "cobweb_cases" = Some (CInt 0) /\
    exists z, at_ df 0 "cases" = Some (CInt z) /\ at_ df 1 "cobweb_cases" = Some (CInt z).
Proof.
  destruct (cobweb_columns_hold_previous_row scenario) as (df & Hdf & [Hc0 Hci] & _).
  pose proof (scenario_nrows df Hdf) as Hn.
  exists df. split; [exact Hdf|]. split; [lia|].
  split; [apply Hc0; lia|apply (Hci 1); lia].
Defined.

Lemma one_row_per_distinct_date_witness :
  exists (df : DataFrame) (ds : list Z), Aggregator (raw_table scenario) = Ok df /\
    get_column "date" (df_columns df) = Some (Datetime64 (map Ts ds)) /\
    midnight 2020 1 22 ∈ ds /\ nrows df = 2.
Proof.
  destruct (one_row_per_distinct_date scenario) as (df & ds & Hdf & Hcol & _ & Hin & _ & _).
  exists df, ds. split; [exact Hdf|]. split; [exact Hcol|].
  split; [|by apply scenario_nrows].
  apply Hin. exists (mkRawRecord (midnight 2020 1 22) "Snohomish" "Washington" (Some 53061%Z) 2 1).
  split; [|reflexivity]. unfold scenario. do 2 apply list_elem_of_further. apply list_elem_of_here.
Defined.

Lemma in_int64_scenario_totals :
  in_int64 (sum_Z (map cases scenario)) /\ in_int64 (sum_Z (map deaths scenario)).
Proof. unfold in_int64. simpl. lia. Defined.

Lemma aggregation_preserves_total_mass_witness :
  in_int64 (sum_Z (map cases scenario)) /\
  in_int64 (sum_Z (map deaths scenario)) /\
  exists df, Aggregator (raw_table scenario) = Ok df /\
    column_sum "cases" df = column_sum "cases" (raw_table scenario) /\
    column_sum "deaths" df = column_sum "deaths" (raw_table scenario) /\
    column_sum "cases" df = Some 3%Z /\
    column_sum "deaths" df = Some 1%Z.
Proof.
  destruct in_int64_scenario_totals as [Hc Hd].
  split; [exact Hc|]. split; [exact Hd|].
  destruct (aggregation_preserves_total_mass scenario)
    as (df & Hdf & H1 & H2 & _ & _ & H5 & H6).
  exists df. split; [exact Hdf|]. split; [exact H1|]. split; [exact H2|].
  split; [exact (H5 Hc)|exact (H6 Hd)].
Defined.

Lemma daily_rows_sorted_and_summed_witness :
  exists df, Aggregator (raw_table scenario) = Ok df /\
    at_ df 1 "cases" = Some (CInt 2) /\ at_ df 1 "deaths" = Some (CInt 1).
Proof.
  destruct (daily_rows_sorted_and_summed scenario) as (df & ds & Hdf & Hcol & _ & _ & Hrows).
  exists df. split; [exact Hdf|].
  assert (Hds : ds !! 1 = Some (midnight 2020 1 22)).
  { rewrite Aggregator_raw in Hdf. injection Hdf as <-.
    injection Hcol as Hcol. change (days scenario) with [midnight 2020 1 21; midnight 2020 1 22] in Hcol.
    destruct ds as [|a [|b ds]]; try discriminate. by injection Hcol as _ <- _. }
  destruct (Hrows 1 _ Hds) as (_ & _ & _ & Hc & Hd).
  split; [apply Hc|apply Hd]; unfold in_int64; vm_compute; split; discriminate || reflexivity.
Defined.

Lemma raw_table_unchanged_witness :
  kernel_stale !! "df_full" = Some (raw_table scenario) /\
  exists ns', cell_aggregate kernel_stale = Ok ns' /\
    ns' !! "df_full" = Some (raw_table scenario) /\
    (forall name, name <> "df_plot" -> ns' !! name = kernel_stale !! name).
Proof.
  assert (H : kernel_stale !! "df_full" = Some (raw_table scenario)) by reflexivity.
  split; [exact H|]. exact (raw_table_unchanged scenario kernel_stale H).
Defined.

(** ** The general properties at example tables *)

Ltac frame_ok_by_computation :=
  split; [|by repeat constructor];
  match goal with |- ?G => apply (bool_decide_unpack G) end; by vm_compute.

Lemma frame_ok_table_with_blank_fields : frame_ok table_with_blank_fields.
Proof. frame_ok_by_computation. Defined.

Lemma frame_ok_table_with_undated_row : frame_ok table_with_undated_row.
Proof. frame_ok_by_computation. Defined.

Lemma frame_ok_raw_scenario : frame_ok (raw_table scenario).
Proof. frame_ok_by_computation. Defined.

Lemma frame_ok_scenario_three_columns : frame_ok scenario_three_columns.
Proof. frame_ok_by_computation. Defined.

Lemma frame_ok_fetched_with_blank_date : frame_ok fetched_with_blank_date.
Proof. frame_ok_by_computation. Defined.


Lemma unnamed_is_not_date : (None : option string) <> Some "date".
Proof. discriminate. Defined.

Lemma fips_is_not_date : Some "fips" <> Some "date".
Proof. discriminate. Defined.

Lemma aggregation_succeeds_on_loaded_tables_witness :
  frame_ok table_with_blank_fields /\
  index_name (df_index table_with_blank_fields) <> Some "date" /\
  exists df', Aggregator table_with_blank_fields = Ok df' /\
    column_names df' = ["date"; "cases"; "deaths"; "cobweb_cases"; "cobweb_deaths"] /\
    frame_ok df' /\
    nrows df' <= nrows table_with_blank_fields.
Proof.
  split; [exact frame_ok_table_with_blank_fields|]. split; [exact unnamed_is_not_date|].
  exact (aggregation_succeeds_on_loaded_tables table_with_blank_fields _ _ _
           frame_ok_table_with_blank_fields unnamed_is_not_date eq_refl eq_refl eq_refl).
Defined.

Lemma totals_count_the_dated_rows_witness :
  frame_ok table_with_blank_fields /\
  index_name (df_index table_with_blank_fields) <> Some "date" /\
  (NaT ∉ [Ts (midnight 2020 1 21); Ts (midnight 2020 1 22)]) /\
  (exists df', Aggregator table_with_blank_fields = Ok df' /\
     column_sum "cases" df' = Some 3%Z /\
     column_sum "deaths" df' = Some 1%Z /\
     column_sum "cases" table_with_blank_fields = Some 7%Z) /\
  (exists df', Aggregator (raw_table scenario) = Ok df' /\
     column_sum "cases" df' = column_sum "cases" (raw_table scenario) /\
     column_sum "deaths" df' = column_sum "deaths" (raw_table scenario)).
Proof.
  split; [exact frame_ok_table_with_blank_fields|]. split; [exact unnamed_is_not_date|].
  assert (Hnat : NaT ∉ map (fun r => Ts (date r)) scenario).
  { unfold scenario. cbn [map date]. rewrite !elem_of_cons, elem_of_nil.
    intros [H|[H|[H|[]]]]; discriminate H. }
  split.
  { rewrite !elem_of_cons, elem_of_nil. intros [H|[H|[]]]; discriminate H. }
  split.
  - destruct (totals_count_the_dated_rows table_with_blank_fields _ _ _
                frame_ok_table_with_blank_fields unnamed_is_not_date eq_refl eq_refl eq_refl)
      as (df' & Hdf & Hc & Hd & _).
    exists df'. split; [exact Hdf|]. split; [exact Hc|]. split; [exact Hd|reflexivity].
  - destruct (totals_count_the_dated_rows (raw_table scenario) _ _ _
                frame_ok_raw_scenario unnamed_is_not_date eq_refl eq_refl eq_refl)
      as (df' & Hdf & _ & _ & Hkept).
    exists df'. split; [exact Hdf|]. exact (Hkept Hnat).
Defined.

Lemma totals_dates_are_the_dates_present_witness :
  frame_ok table_with_undated_row /\
  index_name (df_index table_with_undated_row) <> Some "date" /\
  exists df' ds, Aggregator table_with_undated_row = Ok df' /\
    get_column "date" (df_columns df') = Some (Datetime64 (map Ts ds)) /\
    nrows df' = length ds /\
    StronglySorted Z.lt ds /\
    (forall t, t ∈ ds <-> Ts t ∈ [Ts (midnight 2020 1 21); NaT]) /\
    (forall i, at_ df' i "date" <> Some (CTime NaT)).
Proof.
  split; [exact frame_ok_table_with_undated_row|]. split; [exact unnamed_is_not_date|].
  exact (totals_dates_are_the_dates_present table_with_undated_row _ _ _
           frame_ok_table_with_undated_row unnamed_is_not_date eq_refl eq_refl eq_refl).
Defined.

Lemma missing_column_is_a_key_error_witness :
  ({["df_full" := table_without_deaths]} : gmap string DataFrame) !! "df_full"
  = Some table_without_deaths /\
  "deaths" ∈ ["date"; "cases"; "deaths"] /\
  get_column "deaths" (df_columns table_without_deaths) = None /\
  exists k, cell_aggregate {["df_full" := table_without_deaths]} = Raise (KeyError k) /\
    k ∈ ["date"; "cases"; "deaths"] /\
    get_column k (df_columns table_without_deaths) = None.
Proof.
  assert (H1 : ({["df_full" := table_without_deaths]} : gmap string DataFrame) !! "df_full"
               = Some table_without_deaths) by reflexivity.
  assert (H2 : "deaths" ∈ ["date"; "cases"; "deaths"])
    by (do 2 apply list_elem_of_further; apply list_elem_of_here).
  split; [exact H1|]. split; [exact H2|]. split; [reflexivity|].
  exact (missing_column_is_a_key_error _ table_without_deaths "deaths" H1 H2 eq_refl).
Defined.


Lemma aggregation_reads_three_columns_only_witness :
  frame_ok (raw_table scenario) /\ frame_ok scenario_three_columns /\
  index_name (df_index (raw_table scenario)) <> Some "date" /\
  index_name (df_index scenario_three_columns) <> Some "date" /\
  Aggregator (raw_table scenario) = Aggregator scenario_three_columns.
Proof.
  split; [exact frame_ok_raw_scenario|]. split; [exact frame_ok_scenario_three_columns|].
  split; [exact unnamed_is_not_date|]. split; [exact fips_is_not_date|].
  exact (aggregation_reads_three_columns_only (raw_table scenario) scenario_three_columns
           (map (fun r => Ts (date r)) scenario) (map cases scenario) (map deaths scenario)
           frame_ok_raw_scenario frame_ok_scenario_three_columns
           unnamed_is_not_date fips_is_not_date
           eq_refl eq_refl eq_refl eq_refl eq_refl eq_refl).
Defined.

Lemma aggregation_ignores_row_order_witness :
  scenario ≡ₚ reverse scenario /\
  Aggregator (raw_table scenario) = Aggregator (raw_table (reverse scenario)).
Proof.
  assert (H : scenario ≡ₚ reverse scenario) by (symmetry; apply reverse_Permutation).
  split; [exact H|]. exact (aggregation_ignores_row_order _ _ H).
Defined.

Lemma totals_of_nonnegative_counts_are_nonnegative_witness :
  (forall r, r ∈ scenario -> (0 <= cases r)%Z /\ (0 <= deaths r)%Z) /\
  in_int64 (sum_Z (map cases scenario)) /\
  in_int64 (sum_Z (map deaths scenario)) /\
  exists df, Aggregator (raw_table scenario) = Ok df /\
    forall name i z,
      name ∈ ["cases"; "deaths"; "cobweb_cases"; "cobweb_deaths"] ->
      at_ df i name = Some (CInt z) -> (0 <= z)%Z.
Proof.
  assert (H : forall r, r ∈ scenario -> (0 <= cases r)%Z /\ (0 <= deaths r)%Z).
  { apply Forall_forall. unfold scenario. repeat constructor; simpl; lia. }
  destruct in_int64_scenario_totals as [Hc Hd].
  split; [exact H|]. split; [exact Hc|]. split; [exact Hd|].
  exact (totals_of_nonnegative_counts_are_nonnegative scenario H Hc Hd).
Defined.

Lemma loading_parses_the_date_column_witness :
  frame_ok fetched_with_blank_date /\
  exists ns' df ts,
    cell_load parse_iso_date (Ok fetched_with_blank_date) ∅ = Ok ns' /\
    ns' !! "df_full" = Some df /\
    get_column "date" (df_columns df) = Some (Datetime64 ts) /\
    Forall2 (parsed_as parse_iso_date) [Some "2020-01-21"; None] ts /\
    column_names df = ["date"; "county"; "cases"; "deaths"] /\
    frame_ok df.
Proof.
  split; [exact frame_ok_fetched_with_blank_date|].
  assert (Hall : forall text, Some text ∈ [Some "2020-01-21"; None] ->
                   exists t, parse_iso_date text = Parsed t).
  { intros text Hin. rewrite !elem_of_cons, elem_of_nil in Hin.
    destruct Hin as [[= ->]|[[=]|[]]]. eexists. vm_compute. reflexivity. }
  destruct (loading_parses_the_date_column parse_iso_date fetched_with_blank_date ∅ _
              frame_ok_fetched_with_blank_date eq_refl Hall)
    as (ns' & df & ts & H1 & H2 & _ & H4 & H5 & _ & H7 & _ & H9).
  exists ns', df, ts. repeat split; try done. exact (proj1 H9). exact (proj2 H9).
Defined.

Lemma loading_then_aggregating_witness :
  frame_ok fetched_with_blank_date /\
  index_name (df_index fetched_with_blank_date) <> Some "date" /\
  exists ns1 ns2 ts df ds,
    cell_load parse_iso_date (Ok fetched_with_blank_date) ∅ = Ok ns1 /\
    cell_aggregate ns1 = Ok ns2 /\
    Forall2 (parsed_as parse_iso_date) [Some "2020-01-21"; None] ts /\
    ns2 !! "df_plot" = Some df /\
    get_column "date" (df_columns df) = Some (Datetime64 (map Ts ds)) /\
    StronglySorted Z.lt ds /\
    (forall t, t ∈ ds <-> Ts t ∈ ts) /\
    (forall i t, ds !! i = Some t ->
       at_ df i "cases" = Some (CInt (int64 (dated_total t ts [1; 5]%Z))) /\
       at_ df i "deaths" = Some (CInt (int64 (dated_total t ts [0; 2]%Z)))).
Proof.
  split; [exact frame_ok_fetched_with_blank_date|]. split; [exact unnamed_is_not_date|].
  assert (Hall : forall text, Some text ∈ [Some "2020-01-21"; None] ->
                   exists t, parse_iso_date text = Parsed t).
  { intros text Hin. rewrite !elem_of_cons, elem_of_nil in Hin.
    destruct Hin as [[= ->]|[[=]|[]]]. eexists. vm_compute. reflexivity. }
  exact (loading_then_aggregating parse_iso_date fetched_with_blank_date ∅ _ _ _
           frame_ok_fetched_with_blank_date unnamed_is_not_date eq_refl eq_refl eq_refl Hall).
Defined.
